(** * ProConnect: the authentication and session core of [proconnect.py]

    A shallow embedding of the auth helpers ([hash_pw], [check_pw],
    [session_create], [session_get]), the cookie helper ([cookie_get]) and the
    three account routes ([signup], [login], [logout]) of
    [src/proconnect_website/proconnect.py], with the SQLite tables they use.

    - Python [str] values are sequences of Unicode code points ([list N]).
    - The three tables are a record: [users] is a list of rows (two keys: the
      rowid and the UNIQUE username), [sessions] a finite map keyed by its
      PRIMARY KEY [token], [posts] a list of rows.
    - Effects (the store, [os.urandom] behind [secrets], the wall clock) are
      threaded by a state-and-exception monad [M]; a Python exception is a
      [Raise] result. *)

From Stdlib Require Import ZArith NArith List Ascii String Strings.Byte Bool Lia.
From stdpp Require Import base option list gmap.

Import ListNotations.
Local Open Scope Z_scope.

(** ** Python strings *)

Module PyStr.

(** A [str] is a sequence of code points. *)
Definition pystr : Type := list N.

(** ASCII literals of the source. *)
Definition str (s : string) : pystr :=
  List.map N_of_ascii (list_ascii_of_string s).

(** A one-character literal. *)
Definition chr (a : ascii) : N := N_of_ascii a.

Definition eqb (a b : pystr) : bool := bool_decide (a = b).

(** [c in s] for a one-character [c]. *)
Definition contains (c : N) (s : pystr) : bool :=
  existsb (N.eqb c) s.

(** [s.split(c)]: every occurrence of [c] separates two parts. *)
Fixpoint split (c : N) (s : pystr) : list pystr :=
  match s with
  | [] => [[]]
  | x :: r =>
      if N.eqb x c then [] :: split c r
      else match split c r with
           | p :: ps => (x :: p) :: ps
           | [] => [[x]]
           end
  end.

(** [s.split(c, 1)]: at most one split, at the first occurrence of [c]. *)
Fixpoint split1 (c : N) (s : pystr) : list pystr :=
  match s with
  | [] => [[]]
  | x :: r =>
      if N.eqb x c then [[]; r]
      else match split1 c r with
           | p :: ps => (x :: p) :: ps
           | [] => [[x]]
           end
  end.

(** The code points [str.strip()] removes (those of [str.isspace]). *)
Definition is_space (x : N) : bool :=
  ((9 <=? x) && (x <=? 13) || (28 <=? x) && (x <=? 32)
   || (x =? 133) || (x =? 160) || (x =? 5760)
   || (8192 <=? x) && (x <=? 8202)
   || (x =? 8232) || (x =? 8233) || (x =? 8239) || (x =? 8287)
   || (x =? 12288))%N.

Fixpoint drop_while (p : N -> bool) (s : pystr) : pystr :=
  match s with
  | x :: r => if p x then drop_while p r else s
  | [] => []
  end.

(** [s.rstrip(chars)], the characters given by the predicate [p]. *)
Definition rstrip_by (p : N -> bool) (s : pystr) : pystr :=
  rev (drop_while p (rev s)).

(** [s.strip()]. *)
Definition strip (s : pystr) : pystr :=
  rstrip_by is_space (drop_while is_space s).

(** Truth value of a [str]: empty is false. *)
Definition truthy (s : pystr) : bool :=
  match s with [] => false | _ :: _ => true end.

End PyStr.
Import PyStr.

(** ** [secrets]: hexadecimal and URL-safe base64 renderings of random bytes *)

Module Secrets.

(** [binascii.hexlify]: two lower-case hexadecimal digits per byte. *)
Definition hex_digit (n : N) : N :=
  (if n <? 10 then 48 + n else 87 + n)%N.

Definition hexlify (bs : list byte) : pystr :=
  flat_map (fun b => let n := Byte.to_N b in
                     [hex_digit (n / 16); hex_digit (n mod 16)]) bs.

(** The alphabet of [base64.urlsafe_b64encode]: A-Z a-z 0-9 - _ *)
Definition b64_char (n : N) : N :=
  (if n <? 26 then 65 + n
   else if n <? 52 then 71 + n
   else if n <? 62 then n - 4
   else if n =? 62 then 45 else 95)%N.

Definition pad : N := 61%N.

Fixpoint urlsafe_b64encode (bs : list byte) : pystr :=
  match bs with
  | a :: b :: c :: r =>
      let a := Byte.to_N a in let b := Byte.to_N b in let c := Byte.to_N c in
      [b64_char (a / 4); b64_char ((a mod 4) * 16 + b / 16);
       b64_char ((b mod 16) * 4 + c / 64); b64_char (c mod 64)]%N
      ++ urlsafe_b64encode r
  | [a; b] =>
      let a := Byte.to_N a in let b := Byte.to_N b in
      [b64_char (a / 4); b64_char ((a mod 4) * 16 + b / 16);
       b64_char ((b mod 16) * 4); pad]%N
  | [a] =>
      let a := Byte.to_N a in
      [b64_char (a / 4); b64_char ((a mod 4) * 16); pad; pad]%N
  | [] => []
  end.

End Secrets.
Import Secrets.

(** ** SHA-256 of the UTF-8 encoding, for running the program on examples

    The properties below hold for every digest function; this one is what
    [hashlib] computes, so that the examples run as the program does. *)

Module Sha256.

(** [s.encode()]: UTF-8, on text, that is without surrogate code points
    (decoding a request never yields one; on one Python raises). *)
Definition utf8 (x : N) : list Z :=
  let x := Z.of_N x in
  if x <? 128 then [x]
  else if x <? 2048 then [192 + x / 64; 128 + x mod 64]
  else if x <? 65536 then
    [224 + x / 4096; 128 + (x / 64) mod 64; 128 + x mod 64]
  else [240 + x / 262144; 128 + (x / 4096) mod 64;
        128 + (x / 64) mod 64; 128 + x mod 64].

Definition encode (s : pystr) : list Z := flat_map utf8 s.

Definition w32 (x : Z) : Z := x mod 4294967296.
Definition add32 (x y : Z) : Z := w32 (x + y).
Definition rotr (n x : Z) : Z :=
  Z.lor (Z.shiftr x n) (w32 (Z.shiftl x (32 - n))).
Definition not32 (x : Z) : Z := 4294967295 - x.

Definition Ch (x y z : Z) : Z := Z.lxor (Z.land x y) (Z.land (not32 x) z).
Definition Maj (x y z : Z) : Z :=
  Z.lxor (Z.lxor (Z.land x y) (Z.land x z)) (Z.land y z).
Definition Sigma0 (x : Z) : Z :=
  Z.lxor (Z.lxor (rotr 2 x) (rotr 13 x)) (rotr 22 x).
Definition Sigma1 (x : Z) : Z :=
  Z.lxor (Z.lxor (rotr 6 x) (rotr 11 x)) (rotr 25 x).
Definition sigma0 (x : Z) : Z :=
  Z.lxor (Z.lxor (rotr 7 x) (rotr 18 x)) (Z.shiftr x 3).
Definition sigma1 (x : Z) : Z :=
  Z.lxor (Z.lxor (rotr 17 x) (rotr 19 x)) (Z.shiftr x 10).

Definition K : list Z :=
    [1116352408; 1899447441; 3049323471; 3921009573; 961987163; 1508970993;
     2453635748; 2870763221; 3624381080; 310598401; 607225278; 1426881987;
     1925078388; 2162078206; 2614888103; 3248222580; 3835390401; 4022224774;
     264347078; 604807628; 770255983; 1249150122; 1555081692; 1996064986;
     2554220882; 2821834349; 2952996808; 3210313671; 3336571891; 3584528711;
     113926993; 338241895; 666307205; 773529912; 1294757372; 1396182291;
     1695183700; 1986661051; 2177026350; 2456956037; 2730485921; 2820302411;
     3259730800; 3345764771; 3516065817; 3600352804; 4094571909; 275423344;
     430227734; 506948616; 659060556; 883997877; 958139571; 1322822218;
     1537002063; 1747873779; 1955562222; 2024104815; 2227730452; 2361852424;
     2428436474; 2756734187; 3204031479; 3329325298].

Definition H0 : list Z :=
    [1779033703; 3144134277; 1013904242; 2773480762; 1359893119; 2600822924;
     528734635; 1541459225].

(** Big-endian bytes of [x], [n] of them. *)
Fixpoint be_bytes (n : nat) (x : Z) : list Z :=
  match n with
  | O => []
  | S n' => be_bytes n' (x / 256) ++ [x mod 256]
  end.

Definition be_word (bs : list Z) : Z :=
  fold_left (fun acc b => acc * 256 + b) bs 0.

(** The message, a 1 bit, zeros up to 56 modulo 64, the bit length. *)
Definition padded (msg : list Z) : list Z :=
  let len := Z.of_nat (length msg) in
  let zeros := Z.to_nat ((55 - len) mod 64) in
  msg ++ [128] ++ repeat 0 zeros ++ be_bytes 8 (8 * len).

(** Groups of [n] elements; [fuel] bounds the number of groups. *)
Fixpoint chunks {A} (n fuel : nat) (l : list A) : list (list A) :=
  match fuel, l with
  | O, _ | _, [] => []
  | S f, _ => firstn n l :: chunks n f (skipn n l)
  end.

(** The schedule, latest word first: [acc] holds w[i-1], w[i-2], ... *)
Fixpoint extend (n : nat) (acc : list Z) : list Z :=
  match n with
  | O => acc
  | S n' =>
      let w k := nth k acc 0 in
      extend n' (add32 (add32 (sigma1 (w 1%nat)) (w 6%nat))
                       (add32 (sigma0 (w 14%nat)) (w 15%nat)) :: acc)
  end.

Definition schedule (block : list Z) : list Z :=
  rev (extend 48 (rev (List.map be_word (chunks 4 16 block)))).

Definition round (st : list Z) (kw : Z * Z) : list Z :=
  match st with
  | [a; b; c; d; e; f; g; h] =>
      let t1 := add32 (add32 (add32 h (Sigma1 e)) (add32 (Ch e f g) (fst kw)))
                      (snd kw) in
      let t2 := add32 (Sigma0 a) (Maj a b c) in
      [add32 t1 t2; a; b; c; add32 d t1; e; f; g]
  | _ => st
  end.

Definition compress (st block : list Z) : list Z :=
  let st' := fold_left round (combine K (schedule block)) st in
  List.map (fun p => add32 (fst p) (snd p)) (combine st st').

Definition digest (msg : list Z) : list Z :=
  let p := padded msg in
  flat_map (be_bytes 4) (fold_left compress (chunks 64 (length p) p) H0).

Definition hexdigest (s : pystr) : pystr :=
  flat_map (fun b => [hex_digit (Z.to_N (b / 16)); hex_digit (Z.to_N (b mod 16))])
           (digest (encode s)).

End Sha256.

(** ** Exceptions *)

Inductive exn : Type :=
| ValueError       (* unpacking a list of the wrong length *)
| TypeError        (* subscripting [None] *)
| IntegrityError.  (* sqlite3.IntegrityError: UNIQUE or PRIMARY KEY violated *)

Inductive result (A : Type) : Type :=
| Ok (a : A)
| Raise (e : exn).
Arguments Ok {A} a.
Arguments Raise {A} e.

(** [a, b = l] *)
Definition unpack2 (l : list pystr) : result (pystr * pystr) :=
  match l with
  | [a; b] => Ok (a, b)
  | _ => Raise ValueError
  end.

(** ** The SQLite store ([init_db]) *)

Module Db.

(** users(id INTEGER PRIMARY KEY, username TEXT UNIQUE, password TEXT,
    created_at INTEGER) *)
Record user_row : Type := mk_user
  { id : Z; username : pystr; password : pystr; created_at : Z }.

(** sessions(token TEXT PRIMARY KEY, user_id INTEGER, expires INTEGER);
    the key [token] is the key of the map. *)
Record session_row : Type := mk_session
  { user_id : Z; expires : Z }.

(** posts(id INTEGER PRIMARY KEY, user_id INTEGER, content TEXT, image TEXT,
    created_at INTEGER) *)
Record post_row : Type := mk_post
  { post_id : Z; post_user_id : Z; content : pystr;
    image : option pystr; post_created_at : Z }.

Record database : Type := mk_db
  { users : list user_row;
    sessions : gmap pystr session_row;
    posts : list post_row }.

Definition empty_db : database := mk_db [] ∅ [].

(** SELECT ... FROM users WHERE username=? *)
Definition user_by_username (name : pystr) (d : database) : option user_row :=
  List.find (fun r => PyStr.eqb (username r) name) (users d).

(** SELECT ... FROM users WHERE id=? *)
Definition user_by_id (uid : Z) (d : database) : option user_row :=
  List.find (fun r => Z.eqb (id r) uid) (users d).

(** The rowid SQLite gives a new row: one more than the largest in use
    (as long as that is below 2^63 - 1), 1 in an empty table. *)
Definition next_rowid (rows : list user_row) : Z :=
  match rows with
  | [] => 1
  | r :: rs => 1 + fold_left Z.max (List.map id rs) (id r)
  end.

(** INSERT INTO users(username,password,created_at) VALUES (?,?,?) *)
Definition insert_user (name pw_hash : pystr) (now : Z) (d : database)
  : result database :=
  match user_by_username name d with
  | Some _ => Raise IntegrityError
  | None =>
      Ok (mk_db (users d ++ [mk_user (next_rowid (users d)) name pw_hash now])
                (sessions d) (posts d))
  end.

(** SELECT user_id,expires FROM sessions WHERE token=? *)
Definition session_by_token (tok : pystr) (d : database) : option session_row :=
  sessions d !! tok.

(** INSERT INTO sessions VALUES (?,?,?) *)
Definition insert_session (tok : pystr) (uid exp : Z) (d : database)
  : result database :=
  match sessions d !! tok with
  | Some _ => Raise IntegrityError
  | None => Ok (mk_db (users d) (<[tok := mk_session uid exp]> (sessions d)) (posts d))
  end.

(** DELETE FROM sessions WHERE token=? *)
Definition delete_session (tok : pystr) (d : database) : database :=
  mk_db (users d) (delete tok (sessions d)) (posts d).

(** No session is stored under the empty token: true of the empty store
    and kept by every statement the program runs. *)
Definition no_empty_token (d : database) : Prop :=
  sessions d !! ([] : pystr) = None.

(** The store with every password hash blanked. *)
Definition hide_passwords (d : database) : database :=
  mk_db (List.map (fun u => mk_user (id u) (username u) [] (created_at u))
                  (users d))
        (sessions d) (posts d).

End Db.
Import Db.

(** ** The process state and the monad of the handlers *)

(** Besides the store, a run consumes bytes of [os.urandom] and readings of
    the clock: [drawn] and [ticks] count how many were taken so far. *)
Record world : Type := mk_world
  { db : database; drawn : nat; ticks : nat }.

Definition M (A : Type) : Type := world -> result A * world.

Definition ret {A} (a : A) : M A := fun w => (Ok a, w).

Definition bind {A B} (m : M A) (k : A -> M B) : M B :=
  fun w => match m w with
           | (Ok a, w') => k a w'
           | (Raise e, w') => (Raise e, w')
           end.

Notation "'let*' x ':=' m 'in' k" := (bind m (fun x => k))
  (at level 10, x name, m at level 100, k at level 200).
Notation "'let*' ' p ':=' m 'in' k" := (bind m (fun x => match x with p => k end))
  (at level 10, p pattern, m at level 100, k at level 200).
Notation "'do*' m 'in' k" := (bind m (fun _ => k))
  (at level 10, m at level 100, k at level 200).

(** A pure computation that may raise. *)
Definition lift {A} (r : result A) : M A := fun w => (r, w).

#[global] Instance exn_eq_dec : EqDecision exn.
Proof. solve_decision. Defined.

(** [try: m except e: h] *)
Definition try_except {A} (m : M A) (e : exn) (h : M A) : M A :=
  fun w => match m w with
           | (Raise e', w') =>
               if bool_decide (e' = e) then h w' else (Raise e', w')
           | r => r
           end.

(** A statement that reads the store. *)
Definition query {A} (q : database -> A) : M A :=
  fun w => (Ok (q (db w)), w).

(** A statement that writes the store and commits; a failing statement
    leaves the store as it was. *)
Definition execute (stmt : database -> result database) : M unit :=
  fun w => match stmt (db w) with
           | Ok d => (Ok tt, mk_world d (drawn w) (ticks w))
           | Raise e => (Raise e, w)
           end.

(** A computation keeps the store invariant. *)
Definition keeps {A} (m : M A) : Prop :=
  forall w, no_empty_token (db w) -> no_empty_token (db (snd (m w))).

(** ** The program *)

Section Program.

(** [hashlib.sha256(s.encode()).hexdigest()], a function of the text [s]. *)
Variable sha256_hexdigest : pystr -> pystr.

(** The byte stream of [os.urandom] and the successive readings of
    [int(time.time())]. *)
Variable urandom : nat -> byte.
Variable clock : nat -> Z.

(** [secrets.token_bytes(n)] *)
Definition token_bytes (n : nat) : M (list byte) :=
  fun w => (Ok (List.map urandom (seq (drawn w) n)),
            mk_world (db w) (drawn w + n) (ticks w)).

(** [secrets.token_hex(n)] *)
Definition token_hex (n : nat) : M pystr :=
  let* bs := token_bytes n in ret (hexlify bs).

(** [secrets.token_urlsafe(n)] *)
Definition token_urlsafe (n : nat) : M pystr :=
  let* bs := token_bytes n in
  ret (rstrip_by (N.eqb pad) (urlsafe_b64encode bs)).

(** The token the next [token_urlsafe(32)] yields once [n] bytes of the
    stream were drawn. *)
Definition next_token (n : nat) : pystr :=
  rstrip_by (N.eqb pad) (urlsafe_b64encode (List.map urandom (seq n 32))).

(** [int(time.time())] *)
Definition time_now : M Z :=
  fun w => (Ok (clock (ticks w)), mk_world (db w) (drawn w) (S (ticks w))).

(** *** Auth helpers *)

Definition hash_pw (pw : pystr) : M pystr :=
  let* salt := token_hex 8 in
  ret (salt ++ str "$" ++ sha256_hexdigest (salt ++ pw)).

Definition check_pw (pw stored : pystr) : result bool :=
  match unpack2 (split1 (chr "$") stored) with
  | Ok (salt, h) => Ok (PyStr.eqb (sha256_hexdigest (salt ++ pw)) h)
  | Raise e => Raise e
  end.

Definition session_create (uid : Z) : M pystr :=
  let* token := token_urlsafe 32 in
  let* now := time_now in
  let exp := now + 604800 in
  do* execute (insert_session token uid exp) in
  ret token.

(** The dict [{'id': ..., 'username': ...}] that [session_get] returns. *)
Record identity : Type := mk_identity
  { ident_id : Z; ident_username : pystr }.

Definition session_get (tok : option pystr) : M (option identity) :=
  match tok with
  | None => ret None
  | Some t =>
      if negb (truthy t) then ret None
      else
        let* row := query (session_by_token t) in
        match row with
        | None => ret None
        | Some r =>
            let uid := user_id r in
            let exp := expires r in
            let* now := time_now in
            if exp <? now then
              do* execute (fun d => Ok (delete_session t d)) in
              ret None
            else
              let* u := query (user_by_id uid) in
              ret (match u with
                   | Some u => Some (mk_identity (id u) (username u))
                   | None => None
                   end)
        end
  end.

(** The session-table part of [session_get], lines 74 to 82, with the
    user id read from the row as its result: the step that §4.2 of the
    specification calls resolve. *)
Definition session_resolve (tok : option pystr) : M (option Z) :=
  match tok with
  | None => ret None
  | Some t =>
      if negb (truthy t) then ret None
      else
        let* row := query (session_by_token t) in
        match row with
        | None => ret None
        | Some r =>
            let uid := user_id r in
            let exp := expires r in
            let* now := time_now in
            if exp <? now then
              do* execute (fun d => Ok (delete_session t d)) in
              ret None
            else ret (Some uid)
        end
  end.

(** The rest of [session_get], lines 83 to 85. *)
Definition load_identity (uid : Z) : M (option identity) :=
  let* u := query (user_by_id uid) in
  ret (match u with
       | Some u => Some (mk_identity (id u) (username u))
       | None => None
       end).

(** *** Requests and responses *)

(** The WSGI environment, with the form fields as [cgi.FieldStorage] and
    [parse_qs] decode them from the request body. *)
Record environ : Type := mk_environ
  { REQUEST_METHOD : pystr;
    HTTP_COOKIE : option pystr;
    form : list (pystr * pystr) }.

(** [fs.getfirst(name, '')] and [d.get(name, [''])[0]]: the first value of
    the field, the empty string when the field is absent. *)
Definition getfirst (env : environ) (name : pystr) : pystr :=
  match List.find (fun kv => PyStr.eqb (fst kv) name) (form env) with
  | Some kv => snd kv
  | None => []
  end.

(** The fixed HTML fragments the routes put in a page. *)
Inductive fragment : Type :=
| AllFieldsRequired   (* All fields required. *)
| UsernameTaken       (* Username taken. *)
| InvalidCredentials  (* Invalid credentials. *)
| SignupForm
| LoginForm.

(** [page(body, title, user).encode()], kept as its three arguments:
    [BASE.format] is a function of them. *)
Inductive payload : Type :=
| page (body : fragment) (title : pystr) (user : option identity)
| no_body.

Record response : Type := mk_response
  { status : pystr; headers : list (pystr * pystr); body : payload }.

Definition ok_html (p : payload) : response :=
  mk_response (str "200 OK") [(str "Content-Type", str "text/html")] p.

(** The three failure pages of [signup] and [login]. *)
Definition all_fields_required : response :=
  ok_html (page AllFieldsRequired (str "Sign Up") None).
Definition username_taken : response :=
  ok_html (page UsernameTaken (str "Sign Up") None).
Definition invalid_credentials : response :=
  ok_html (page InvalidCredentials (str "Login") None).

Definition redirect (loc : pystr) (extra : list (pystr * pystr)) : response :=
  mk_response (str "302 FOUND") ((str "Location", loc) :: extra) no_body.

(** *** Helpers *)

(** The loop of [cookie_get] over the parts of the header. *)
Fixpoint cookie_scan (name : pystr) (parts : list pystr)
  : result (option pystr) :=
  match parts with
  | [] => Ok None
  | part :: rest =>
      if contains (chr "=") part then
        match unpack2 (split1 (chr "=") (strip part)) with
        | Ok (k, v) =>
            if PyStr.eqb k name then Ok (Some v) else cookie_scan name rest
        | Raise e => Raise e
        end
      else cookie_scan name rest
  end.

Definition cookie_get (env : environ) (name : pystr) : result (option pystr) :=
  let cookie := match HTTP_COOKIE env with Some c => c | None => [] end in
  cookie_scan name (split (chr ";") cookie).

Definition session_cookie (tok : pystr) : list (pystr * pystr) :=
  [(str "Set-Cookie", str "session=" ++ tok ++ str "; Path=/; HttpOnly")].

Definition clear_cookie : list (pystr * pystr) :=
  [(str "Set-Cookie",
    str "session=; Path=/; Expires=Thu, 01 Jan 1970 00:00:00 GMT")].

(** *** Routes *)

Definition signup (env : environ) : M response :=
  if PyStr.eqb (REQUEST_METHOD env) (str "POST") then
    let user := strip (getfirst env (str "username")) in
    let pw := getfirst env (str "password") in
    if negb (truthy user) || negb (truthy pw) then
      ret (ok_html (page AllFieldsRequired (str "Sign Up") None))
    else
      try_except
        (let* stored := hash_pw pw in
         let* now := time_now in
         do* execute (insert_user user stored now) in
         let* r := query (user_by_username user) in
         let* uid := lift (match r with
                           | Some u => Ok (id u)
                           | None => Raise TypeError
                           end) in
         let* tok := session_create uid in
         ret (redirect (str "/") (session_cookie tok)))
        IntegrityError
        (ret (ok_html (page UsernameTaken (str "Sign Up") None)))
  else ret (ok_html (page SignupForm (str "Sign Up") None)).

Definition login (env : environ) : M response :=
  if PyStr.eqb (REQUEST_METHOD env) (str "POST") then
    let user := getfirst env (str "username") in
    let pw := getfirst env (str "password") in
    let* r := query (user_by_username user) in
    let invalid := ok_html (page InvalidCredentials (str "Login") None) in
    match r with
    | Some u =>
        let* good := lift (check_pw pw (password u)) in
        if good then
          let* tok := session_create (id u) in
          ret (redirect (str "/") (session_cookie tok))
        else ret invalid
    | None => ret invalid
    end
  else ret (ok_html (page LoginForm (str "Login") None)).

Definition logout (env : environ) : M response :=
  let* tok := lift (cookie_get env (str "session")) in
  do* match tok with
      | Some t =>
          if truthy t then execute (fun d => Ok (delete_session t d))
          else ret tt
      | None => ret tt
      end in
  ret (redirect (str "/") clear_cookie).

End Program.

(** ** Tokens and cookies *)

(** The characters of a URL-safe token: A-Z a-z 0-9 - _ *)
Definition url_safe (x : N) : bool :=
  ((65 <=? x) && (x <=? 90) || (97 <=? x) && (x <=? 122)
   || (48 <=? x) && (x <=? 57) || (x =? 45) || (x =? 95))%N.

(** The lower-case hexadecimal digits. *)
Definition hex_lower (x : N) : bool :=
  ((48 <=? x) && (x <=? 57) || (97 <=? x) && (x <=? 102))%N.

(** A request that carries the given Cookie header. *)
Definition cookie_request (cookie : pystr) : environ :=
  mk_environ (str "GET") (Some cookie) [].
(** A character that is neither a blank nor a semicolon: one that a cookie
    name or value keeps through [cookie_get]. *)
Definition plain (x : N) : bool :=
  negb (is_space x) && negb (N.eqb x (chr ";")).
(** The salt the next [token_hex(8)] yields once [n] bytes of the stream
    were drawn. *)
Definition next_salt (urandom : nat -> byte) (n : nat) : pystr :=
  hexlify (List.map urandom (seq n 8)).

(** ** The HTML template ([BASE], [page]) and [html.escape] *)

Module Html.

(** A literal of the source that has double quotes: written here with a
    backquote for each of them. *)
Definition markup (s : string) : pystr :=
  List.map (fun a => if Ascii.eqb a "`" then 34%N else N_of_ascii a)
           (list_ascii_of_string s).

Definition nl : pystr := [10%N].

(** [s.replace(c, by)] for a one-character [c]. *)
Definition replace (c : N) (by_ : pystr) (s : pystr) : pystr :=
  flat_map (fun x => if N.eqb x c then by_ else [x]) s.

(** [html.escape(s)], with [quote=True]: five replacements in turn, the
    ampersand first. *)
Definition escape (s : pystr) : pystr :=
  let s := replace (chr "&") (str "&amp;") s in
  let s := replace (chr "<") (str "&lt;") s in
  let s := replace (chr ">") (str "&gt;") s in
  let s := replace 34%N (str "&quot;") s in
  let s := replace (chr "'") (str "&#x27;") s in
  s.

(** [BASE], cut at its three fields. *)
Definition base_head : pystr :=
  markup "<!doctype html><html lang=`en`><head><meta charset=`utf-8`><meta name=`viewport` content=`width=device-width,initial-scale=1`>"
  ++ nl ++ markup "<title>".
Definition base_after_title : pystr :=
  markup "</title><link rel=`stylesheet` href=`https://cdn.jsdelivr.net/npm/bootstrap@5.3.2/dist/css/bootstrap.min.css`><link rel=`stylesheet` href=`/static/style.css`></head><body>"
  ++ nl ++ markup "<nav class=`navbar navbar-light`><div class=`container d-flex justify-content-between`><a href=`/` class=`navbar-brand fw-bold`>ProConnect</a><div>".
Definition base_after_nav : pystr :=
  markup "</div></div></nav>" ++ nl ++ markup "<div class=`container`>".
Definition base_tail : pystr := markup "</div></body></html>".

(** [BASE.format(title=..., body=..., nav=...)] *)
Definition base_format (title body nav : pystr) : pystr :=
  base_head ++ title ++ base_after_title ++ nav ++ base_after_nav
  ++ body ++ base_tail.

Definition page (body title : pystr) (user : option identity) : pystr :=
  let nav :=
    match user with
    | Some u =>
        markup "<a href=`/profile` class=`me-3`>"
        ++ escape (ident_username u)
        ++ markup "</a> <a href=`/logout`>Logout</a>"
    | None =>
        markup "<a href=`/login` class=`me-3`>Login</a><a href=`/signup`>Sign Up</a>"
    end in
  base_format (escape title) body nav.

(** The characters that open or close a tag or an attribute value. *)
Definition special (x : N) : bool :=
  ((x =? 60) || (x =? 62) || (x =? 34) || (x =? 39))%N.

End Html.
(** What [html.escape] makes of one character. *)
Definition escape_char (x : N) : pystr :=
  if N.eqb x (chr "&") then str "&amp;"
  else if N.eqb x (chr "<") then str "&lt;"
  else if N.eqb x (chr ">") then str "&gt;"
  else if N.eqb x 34 then str "&quot;"
  else if N.eqb x (chr "'") then str "&#x27;"
  else [x].

(** ** Requests in sequence, and the stores they reach *)

(** A call of one of the account routes, or of [session_get] (which the
    other routes make first). *)
Inductive request : Type :=
| Signup (env : environ)
| Login (env : environ)
| Logout (env : environ)
| SessionGet (tok : option pystr).

(** The changes to the store the routes are made of. *)
Inductive db_step (d : database) : database -> Prop :=
| step_add_user (name stored : pystr) (now : Z) :
    name <> [] -> strip name = name ->
    user_by_username name d = None ->
    contains (chr "$") stored = true ->
    db_step d (mk_db (users d ++ [mk_user (next_rowid (users d)) name stored now])
                     (sessions d) (posts d))
| step_add_session (tok : pystr) (u : user_row) (exp : Z) :
    sessions d !! tok = None ->
    length tok = 43%nat -> forallb url_safe tok = true ->
    In u (users d) ->
    db_step d (mk_db (users d) (<[tok := mk_session (id u) exp]> (sessions d))
                     (posts d))
| step_del_session (tok : pystr) :
    db_step d (delete_session tok d).

Inductive db_steps (d : database) : database -> Prop :=
| steps_refl : db_steps d d
| steps_more (d1 d2 : database) :
    db_steps d d1 -> db_step d1 d2 -> db_steps d d2.

(** No two rows have the same username. *)
Definition usernames_unique (d : database) : Prop :=
  NoDup (List.map username (users d)).

(** No two rows have the same id. *)
Definition ids_unique (d : database) : Prop :=
  NoDup (List.map id (users d)).

(** Every stored password form has the separator. *)
Definition passwords_split (d : database) : Prop :=
  Forall (fun u => contains (chr "$") (password u) = true) (users d).

(** Every stored username is non-empty and has no blank at either end. *)
Definition usernames_trimmed (d : database) : Prop :=
  Forall (fun u => username u <> [] /\ strip (username u) = username u)
         (users d).

(** Every session belongs to a user that has a row. *)
Definition sessions_owned (d : database) : Prop :=
  forall t r, sessions d !! t = Some r ->
              exists u, user_by_id (user_id r) d = Some u.

(** Every stored token is 43 URL-safe characters. *)
Definition tokens_url_safe (d : database) : Prop :=
  forall t r, sessions d !! t = Some r ->
              length t = 43%nat /\ forallb url_safe t = true.

Section Serve.

Variable sha256_hexdigest : pystr -> pystr.
Variable urandom : nat -> byte.
Variable clock : nat -> Z.

(** The state after a request. *)
Definition serve (r : request) (w : world) : world :=
  match r with
  | Signup env => snd (signup sha256_hexdigest urandom clock env w)
  | Login env => snd (login sha256_hexdigest urandom clock env w)
  | Logout env => snd (logout env w)
  | SessionGet tok => snd (session_get clock tok w)
  end.

(** The states a sequence of requests reaches from the empty store. *)
Inductive reachable : world -> Prop :=
| reach_start (n k : nat) : reachable (mk_world empty_db n k)
| reach_serve (r : request) (w : world) :
    reachable w -> reachable (serve r w).

End Serve.

(** ** Concrete runs

    A byte stream, a clock and requests on which the routes are run. *)

Module Run.

Definition rnd (i : nat) : byte :=
  match Byte.of_N ((N.of_nat i * 37 + 11) mod 256) with
  | Some b => b
  | None => x00
  end.

Definition clk (i : nat) : Z := 1700000000 + 100 * Z.of_nat i.

Definition post_form (user pw : string) : environ :=
  mk_environ (str "POST") None
             [(str "username", str user); (str "password", str pw)].

Definition with_cookie (cookie : pystr) : environ :=
  mk_environ (str "GET") (Some cookie) [].

(** A clock stopped one second past the expiry of bob's session, and one
    stopped at it. *)
Definition late (_ : nat) : Z := 1700604901.
Definition at_expiry (_ : nat) : Z := 1700604900.

Definition w0 : world := mk_world empty_db 0 0.

(** The store after bob signed up with the password secret123. *)
Definition w_bob : world :=
  snd (signup Sha256.hexdigest rnd clk (post_form "bob" "secret123") w0).

(** The password column of bob's row, and the token of his session. *)
Definition bob_stored : pystr :=
  match users (db w_bob) with
  | u :: _ => password u
  | [] => []
  end.

Definition bob_token : pystr := next_token rnd 8.

End Run.

(** More runs: a store whose only session has the token that the next
    sign-up will draw, and a request with the cookie of bob's session. *)
Module RunMore.

Definition w_used : world :=
  mk_world (mk_db [] {[ next_token Run.rnd 8 := mk_session 7 0 ]} []) 0 0.

Definition bob_cookie : environ :=
  cookie_request (str "session=" ++ Run.bob_token).

End RunMore.

(** * Properties *)

(** ** Splitting *)

Section SplitFacts.

Variable c : N.

Lemma split1_absent (s : pystr) :
  contains c s = false -> split1 c s = [s].
Proof.
  induction s as [|x r IH]; simpl; [reflexivity|].
  rewrite (N.eqb_sym c x).
  destruct (N.eqb x c); simpl; [discriminate|].
  intros Hr. rewrite (IH Hr). reflexivity.
Qed.

Lemma split1_first (a b : pystr) :
  contains c a = false -> split1 c (a ++ c :: b) = [a; b].
Proof.
  induction a as [|x r IH]; simpl.
  - intros _. rewrite N.eqb_refl. reflexivity.
  - rewrite (N.eqb_sym c x).
    destruct (N.eqb x c); simpl; [discriminate|].
    intros Hr. rewrite (IH Hr). reflexivity.
Qed.

Lemma split1_present (s : pystr) :
  contains c s = true -> exists a b, split1 c s = [a; b].
Proof.
  induction s as [|x r IH]; simpl; [discriminate|].
  rewrite (N.eqb_sym c x).
  destruct (N.eqb x c); simpl.
  - intros _. exists [], r. reflexivity.
  - intros Hr. destruct (IH Hr) as (a & b & ->).
    exists (x :: a), b. reflexivity.
Qed.

Lemma contains_app (a b : pystr) :
  contains c (a ++ b) = contains c a || contains c b.
Proof. unfold contains. apply existsb_app. Qed.

End SplitFacts.

Lemma unpack2_pair (a b : pystr) : unpack2 [a; b] = Ok (a, b).
Proof. reflexivity. Qed.

Lemma unpack2_single (s : pystr) : unpack2 [s] = Raise ValueError.
Proof. reflexivity. Qed.

Lemma eqb_refl (s : pystr) : PyStr.eqb s s = true.
Proof. unfold PyStr.eqb. apply bool_decide_eq_true. reflexivity. Qed.

Lemma eqb_eq (a b : pystr) : PyStr.eqb a b = true <-> a = b.
Proof. unfold PyStr.eqb. apply bool_decide_eq_true. Qed.

Lemma truthy_false (s : pystr) : truthy s = false <-> s = [].
Proof. destruct s; simpl; split; congruence. Qed.

(** ** The renderings of random bytes *)

Lemma hex_digit_not_dollar (n : N) : hex_digit n <> chr "$".
Proof.
  unfold hex_digit, chr. simpl N_of_ascii.
  destruct (N.ltb_spec n 10); lia.
Qed.

Lemma hexlify_no_dollar (bs : list byte) :
  contains (chr "$") (hexlify bs) = false.
Proof.
  induction bs as [|b r IH]; [reflexivity|].
  unfold hexlify, contains in *. cbn [flat_map app existsb].
  rewrite IH, orb_false_r.
  apply orb_false_intro; apply N.eqb_neq; intros E;
    eapply hex_digit_not_dollar; symmetry; exact E.
Qed.

Lemma b64_char_not_pad (n : N) : N.eqb pad (b64_char n) = false.
Proof.
  apply N.eqb_neq. unfold pad, b64_char.
  repeat match goal with
         | |- context [N.ltb ?a ?b] => destruct (N.ltb_spec a b)
         | |- context [N.eqb ?a ?b] => destruct (N.eqb_spec a b)
         end; lia.
Qed.

Lemma drop_while_last (p : N -> bool) (l : pystr) (x : N) :
  p x = false -> drop_while p (l ++ [x]) <> [].
Proof.
  intros Hx. induction l as [|y r IH]; simpl.
  - rewrite Hx. discriminate.
  - destruct (p y); [exact IH | discriminate].
Qed.

Lemma rstrip_by_head (p : N -> bool) (x : N) (l : pystr) :
  p x = false -> rstrip_by p (x :: l) <> [].
Proof.
  intros Hx E. unfold rstrip_by in E. simpl in E.
  apply (f_equal (@rev N)) in E. rewrite rev_involutive in E. simpl in E.
  exact (drop_while_last p (rev l) x Hx E).
Qed.

Lemma urlsafe_b64encode_head (b : byte) (bs : list byte) :
  exists x r, urlsafe_b64encode (b :: bs) = x :: r /\ N.eqb pad x = false.
Proof.
  destruct bs as [|b1 [|b2 r]]; simpl; eexists _, _;
    (split; [reflexivity | apply b64_char_not_pad]).
Qed.

(** ** 4.1 Password hasher *)

Section Hasher.

Variable H : pystr -> pystr.
Variable urandom : nat -> byte.

(** What [hash_pw] returns: the hexadecimal salt drawn at [w], the
    separator, the digest. *)
Lemma hash_pw_run (pw : pystr) (w : world) :
  let salt := hexlify (List.map urandom (seq (drawn w) 8)) in
  hash_pw H urandom pw w =
    (Ok (salt ++ str "$" ++ H (salt ++ pw)),
     mk_world (db w) (drawn w + 8) (ticks w)).
Proof. reflexivity. Qed.

Lemma check_pw_split (pw salt h : pystr) :
  contains (chr "$") salt = false ->
  check_pw H pw (salt ++ str "$" ++ h) = Ok (PyStr.eqb (H (salt ++ pw)) h).
Proof.
  intros Hs. unfold check_pw.
  change (salt ++ str "$" ++ h) with (salt ++ chr "$" :: h).
  rewrite (split1_first _ _ _ Hs). reflexivity.
Qed.

Lemma check_pw_returns (pw stored : pystr) :
  contains (chr "$") stored = true -> exists b, check_pw H pw stored = Ok b.
Proof.
  intros Hs. unfold check_pw.
  destruct (split1_present _ _ Hs) as (a & b & ->).
  eexists. reflexivity.
Qed.

(** C1 (as the code has it): for every password and every stored form
    without the separator [$], [check_pw] raises [ValueError]: the
    one-element list [stored.split('$',1)] does not unpack into
    [salt, h]. It does not return false. *)
Theorem check_pw_no_separator (pw stored : pystr) :
  contains (chr "$") stored = false ->
  check_pw H pw stored = Raise ValueError.
Proof.
  intros Hs. unfold check_pw.
  rewrite (split1_absent _ _ Hs). reflexivity.
Qed.

(** C2: for every password [pw] and every state of the random source,
    [hash_pw pw] returns a stored form against which [check_pw pw]
    returns true. *)
Theorem check_pw_hash_pw (pw : pystr) (w : world) :
  exists stored w',
    hash_pw H urandom pw w = (Ok stored, w') /\
    check_pw H pw stored = Ok true.
Proof.
  eexists _, _. split; [apply hash_pw_run|].
  rewrite check_pw_split by apply hexlify_no_dollar.
  rewrite eqb_refl. reflexivity.
Qed.

End Hasher.

(** C1, at a stored form of sixteen hexadecimal digits and no separator:
    [check_pw] raises; it does not return false. *)
Lemma check_pw_no_separator_counterexample :
  contains (chr "$") (str "0123456789abcdef") = false /\
  check_pw Sha256.hexdigest (str "secret123") (str "0123456789abcdef")
    = Raise ValueError /\
  check_pw Sha256.hexdigest (str "secret123") (str "0123456789abcdef")
    <> Ok false.
Proof. split; [reflexivity | split; [reflexivity | discriminate]]. Qed.

Lemma check_pw_no_separator_witness :
  check_pw Sha256.hexdigest (str "secret123") (str "0123456789abcdef")
    = Raise ValueError.
Proof. apply check_pw_no_separator. reflexivity. Defined.

(** ** 4.2 Session manager *)

Section Sessions.

Variable urandom : nat -> byte.
Variable clock : nat -> Z.

Lemma next_token_nonempty (n : nat) : next_token urandom n <> [].
Proof.
  unfold next_token. change (seq n 32) with (n :: seq (S n) 31).
  cbn [List.map].
  destruct (urlsafe_b64encode_head (urandom n) (List.map urandom (seq (S n) 31)))
    as (x & r & -> & Hx).
  apply rstrip_by_head, Hx.
Qed.

Lemma token_urlsafe_run (w : world) :
  token_urlsafe urandom 32 w =
    (Ok (next_token urandom (drawn w)),
     mk_world (db w) (drawn w + 32) (ticks w)).
Proof. reflexivity. Qed.

(** [session_create], when the token drawn is not yet a key of the table. *)
Lemma session_create_run (uid : Z) (w : world) :
  let tok := next_token urandom (drawn w) in
  sessions (db w) !! tok = None ->
  session_create urandom clock uid w =
    (Ok tok,
     mk_world (mk_db (users (db w))
                     (<[tok := mk_session uid (clock (ticks w) + 604800)]>
                        (sessions (db w)))
                     (posts (db w)))
              (drawn w + 32) (S (ticks w))).
Proof.
  intros tok Hfresh.
  unfold session_create, bind, time_now, execute, insert_session, ret.
  rewrite token_urlsafe_run. cbn [db drawn ticks].
  fold tok. rewrite Hfresh. reflexivity.
Qed.

(** [session_create], when the token drawn is already a key: the INSERT
    fails and the table is as before. *)
Lemma session_create_collision (uid : Z) (w : world) (r : session_row) :
  sessions (db w) !! next_token urandom (drawn w) = Some r ->
  session_create urandom clock uid w =
    (Raise IntegrityError, mk_world (db w) (drawn w + 32) (S (ticks w))).
Proof.
  intros Hused.
  unfold session_create, bind, time_now, execute, insert_session, ret.
  rewrite token_urlsafe_run. cbn [db drawn ticks].
  rewrite Hused. reflexivity.
Qed.

Lemma truthy_nonempty (t : pystr) : t <> [] -> truthy t = true.
Proof. destruct t; [congruence | reflexivity]. Qed.

Lemma stored_token_nonempty (d : database) (t : pystr) (r : session_row) :
  no_empty_token d -> sessions d !! t = Some r -> truthy t = true.
Proof.
  intros Hd Ht. apply truthy_nonempty. intros ->.
  unfold no_empty_token in Hd. congruence.
Qed.

Lemma user_by_id_id (uid : Z) (d : database) (u : user_row) :
  user_by_id uid d = Some u -> id u = uid.
Proof.
  unfold user_by_id. intros Hf.
  apply find_some in Hf as [_ Hu]. apply Z.eqb_eq, Hu.
Qed.

Lemma session_get_no_token (w : world) :
  session_get clock None w = (Ok None, w).
Proof. reflexivity. Qed.

Lemma session_get_empty_token (w : world) :
  session_get clock (Some []) w = (Ok None, w).
Proof. reflexivity. Qed.

Lemma session_get_unknown (t : pystr) (w : world) :
  sessions (db w) !! t = None ->
  session_get clock (Some t) w = (Ok None, w).
Proof.
  intros Ht. unfold session_get. destruct (truthy t); [|reflexivity].
  cbn [negb]. unfold bind, query, session_by_token. rewrite Ht. reflexivity.
Qed.

Lemma session_get_expired (t : pystr) (r : session_row) (w : world) :
  truthy t = true -> sessions (db w) !! t = Some r ->
  expires r < clock (ticks w) ->
  session_get clock (Some t) w =
    (Ok None, mk_world (delete_session t (db w)) (drawn w) (S (ticks w))).
Proof.
  intros Hne Ht Hexp. unfold session_get. rewrite Hne. cbn [negb].
  unfold bind, query, session_by_token, time_now, execute, ret.
  rewrite Ht. cbn [db drawn ticks].
  destruct (Z.ltb_spec (expires r) (clock (ticks w))); [reflexivity | lia].
Qed.

Lemma session_get_live (t : pystr) (r : session_row) (w : world) :
  truthy t = true -> sessions (db w) !! t = Some r ->
  clock (ticks w) <= expires r ->
  session_get clock (Some t) w =
    (Ok (match user_by_id (user_id r) (db w) with
         | Some u => Some (mk_identity (id u) (username u))
         | None => None
         end),
     mk_world (db w) (drawn w) (S (ticks w))).
Proof.
  intros Hne Ht Hexp. unfold session_get. rewrite Hne. cbn [negb].
  unfold bind, query, session_by_token, time_now, execute, ret.
  rewrite Ht. cbn [db drawn ticks].
  destruct (Z.ltb_spec (expires r) (clock (ticks w))); [lia | reflexivity].
Qed.

(** [session_get] is [session_resolve] followed by the user lookup. *)
Lemma session_get_resolve (tok : option pystr) (w : world) :
  session_get clock tok w =
    (let* r := session_resolve clock tok in
     match r with
     | Some uid => load_identity uid
     | None => ret None
     end) w.
Proof.
  destruct tok as [t|]; [|reflexivity].
  unfold session_get, session_resolve, load_identity.
  destruct (truthy t); [|reflexivity]. cbn [negb].
  unfold bind, query, session_by_token, time_now, execute, ret.
  destruct (sessions (db w) !! t) as [r|]; [|reflexivity].
  cbn [db drawn ticks].
  destruct (expires r <? clock (ticks w)); reflexivity.
Qed.

Lemma session_resolve_expired (t : pystr) (r : session_row) (w : world) :
  truthy t = true -> sessions (db w) !! t = Some r ->
  expires r < clock (ticks w) ->
  session_resolve clock (Some t) w =
    (Ok None, mk_world (delete_session t (db w)) (drawn w) (S (ticks w))).
Proof.
  intros Hne Ht Hexp. unfold session_resolve. rewrite Hne. cbn [negb].
  unfold bind, query, session_by_token, time_now, execute, ret.
  rewrite Ht. cbn [db drawn ticks].
  destruct (Z.ltb_spec (expires r) (clock (ticks w))); [reflexivity | lia].
Qed.

Lemma session_resolve_live (t : pystr) (r : session_row) (w : world) :
  truthy t = true -> sessions (db w) !! t = Some r ->
  clock (ticks w) <= expires r ->
  session_resolve clock (Some t) w =
    (Ok (Some (user_id r)), mk_world (db w) (drawn w) (S (ticks w))).
Proof.
  intros Hne Ht Hexp. unfold session_resolve. rewrite Hne. cbn [negb].
  unfold bind, query, session_by_token, time_now, execute, ret.
  rewrite Ht. cbn [db drawn ticks].
  destruct (Z.ltb_spec (expires r) (clock (ticks w))); [lia | reflexivity].
Qed.

(** C3: for a stored session, the expiry test is strict. When [expires]
    is less than the current time, the resolve step (and so [session_get])
    returns [None] and the row is deleted from the table, nothing else
    changing. When [expires] equals the current time, the resolve step
    succeeds with the bound user id and the store is as before;
    [session_get] then returns the identity with that id when the user row
    exists. *)
Theorem session_expiry_exclusive
    (t : pystr) (r : session_row) (w : world) :
  no_empty_token (db w) ->
  sessions (db w) !! t = Some r ->
  let now := clock (ticks w) in
  (expires r < now ->
     let w' := mk_world (delete_session t (db w)) (drawn w) (S (ticks w)) in
     session_resolve clock (Some t) w = (Ok None, w') /\
     session_get clock (Some t) w = (Ok None, w') /\
     sessions (db w') !! t = None /\
     (forall t', t' <> t -> sessions (db w') !! t' = sessions (db w) !! t') /\
     users (db w') = users (db w) /\ posts (db w') = posts (db w)) /\
  (expires r = now ->
     let w' := mk_world (db w) (drawn w) (S (ticks w)) in
     session_resolve clock (Some t) w = (Ok (Some (user_id r)), w') /\
     snd (session_get clock (Some t) w) = w' /\
     forall u, user_by_id (user_id r) (db w) = Some u ->
       fst (session_get clock (Some t) w)
         = Ok (Some (mk_identity (user_id r) (username u)))).
Proof.
  intros Hok Ht now.
  pose proof (stored_token_nonempty _ _ _ Hok Ht) as Hne.
  split; intros Hexp w'.
  - rewrite (session_resolve_expired t r w Hne Ht Hexp).
    rewrite (session_get_expired t r w Hne Ht Hexp).
    subst w'. cbn [db delete_session sessions users posts].
    repeat split.
    + apply lookup_delete_eq.
    + intros t' Hneq. apply lookup_delete_ne. congruence.
  - assert (Hle : clock (ticks w) <= expires r) by (subst now; lia).
    rewrite (session_resolve_live t r w Hne Ht Hle).
    rewrite (session_get_live t r w Hne Ht Hle).
    cbn [fst snd]. repeat split.
    intros u Hu. rewrite Hu, (user_by_id_id _ _ _ Hu). reflexivity.
Qed.

(** C6: for every user id, when the token drawn is not already a key of
    the table, [session_create] stores under it the row
    [(uid, now + 604800)], changes nothing else and returns the token.
    At the next clock reading, if it is not past that expiry, the resolve
    step on the token returns [uid] and leaves the store as it is, and
    [session_get] returns the identity with id [uid] when that user's row
    exists. *)
Theorem session_create_then_resolve (uid : Z) (w : world) :
  sessions (db w) !! next_token urandom (drawn w) = None ->
  clock (S (ticks w)) <= clock (ticks w) + 604800 ->
  let tok := next_token urandom (drawn w) in
  let now := clock (ticks w) in
  exists w1,
    session_create urandom clock uid w = (Ok tok, w1) /\
    sessions (db w1) !! tok = Some (mk_session uid (now + 604800)) /\
    (forall t, t <> tok -> sessions (db w1) !! t = sessions (db w) !! t) /\
    users (db w1) = users (db w) /\ posts (db w1) = posts (db w) /\
    session_resolve clock (Some tok) w1
      = (Ok (Some uid), mk_world (db w1) (drawn w1) (S (ticks w1))) /\
    forall u, user_by_id uid (db w) = Some u ->
      session_get clock (Some tok) w1
        = (Ok (Some (mk_identity uid (username u))),
           mk_world (db w1) (drawn w1) (S (ticks w1))).
Proof.
  intros Hfresh Hsoon tok now.
  set (row := mk_session uid (now + 604800)).
  set (w1 := mk_world (mk_db (users (db w)) (<[tok := row]> (sessions (db w)))
                             (posts (db w)))
                      (drawn w + 32) (S (ticks w))).
  assert (Hrow : sessions (db w1) !! tok = Some row) by apply lookup_insert_eq.
  assert (Hne : truthy tok = true)
    by apply truthy_nonempty, next_token_nonempty.
  assert (Hle : clock (ticks w1) <= expires row) by exact Hsoon.
  exists w1. split; [apply (session_create_run uid w Hfresh)|].
  split; [exact Hrow|].
  split; [intros t Hneq; apply lookup_insert_ne; congruence|].
  split; [reflexivity|]. split; [reflexivity|].
  split.
  - rewrite (session_resolve_live tok row w1 Hne Hrow Hle). reflexivity.
  - intros u Hu.
    rewrite (session_get_live tok row w1 Hne Hrow Hle).
    change (user_by_id (user_id row) (db w1)) with (user_by_id uid (db w)).
    rewrite Hu, (user_by_id_id _ _ _ Hu). reflexivity.
Qed.

End Sessions.

(** ** 4.3 Identity resolver *)

Section Resolver.

Variable clock : nat -> Z.

(** The three ways [session_get] runs. *)
Lemma session_get_cases (tok : option pystr) (w : world) :
  (session_get clock tok w = (Ok None, w) /\
   (tok = None \/ tok = Some [] \/
    exists t, tok = Some t /\ sessions (db w) !! t = None)) \/
  (exists t r,
     tok = Some t /\ truthy t = true /\ sessions (db w) !! t = Some r /\
     (expires r < clock (ticks w) /\
      session_get clock tok w =
        (Ok None,
         mk_world (delete_session t (db w)) (drawn w) (S (ticks w)))
      \/
      clock (ticks w) <= expires r /\
      session_get clock tok w =
        (Ok (match user_by_id (user_id r) (db w) with
             | Some u => Some (mk_identity (id u) (username u))
             | None => None
             end),
         mk_world (db w) (drawn w) (S (ticks w))))).
Proof.
  destruct tok as [t|]; [|left; split; [reflexivity | tauto]].
  destruct (truthy t) eqn:Hne;
    [|apply truthy_false in Hne as ->; left; split; [reflexivity | tauto]].
  destruct (sessions (db w) !! t) as [r|] eqn:Ht.
  - right. exists t, r. repeat split; [exact Hne | exact Ht |].
    destruct (Z.lt_ge_cases (expires r) (clock (ticks w))) as [Hexp | Hle].
    + left. split; [exact Hexp | apply (session_get_expired _ _ r); assumption].
    + right. split; [exact Hle | apply (session_get_live _ _ r); assumption].
  - left. split; [apply session_get_unknown, Ht|].
    right. right. exists t. split; [reflexivity | exact Ht].
Qed.

Lemma user_by_id_hide (uid : Z) (d : database) :
  user_by_id uid (hide_passwords d) =
    match user_by_id uid d with
    | Some u => Some (mk_user (id u) (username u) [] (created_at u))
    | None => None
    end.
Proof.
  unfold user_by_id, hide_passwords. cbn [users].
  induction (users d) as [|u us IH]; [reflexivity|].
  cbn [List.map List.find id]. destruct (id u =? uid); [reflexivity | exact IH].
Qed.

(** C7 (as the code has it): [session_get] returns [None] when there is
    no token or an empty one, when no session is stored under the token,
    when the stored session has expired, and when the session is live but
    no user row has its user id. For a live session whose user row exists
    it returns the identity made of that row's [id] and [username]; the
    record has no other field, and the outcome is the same when every
    password hash of the store is blanked. *)
Theorem session_get_outcomes (tok : option pystr) (w : world) :
  no_empty_token (db w) ->
  let out := fst (session_get clock tok w) in
  let now := clock (ticks w) in
  (tok = None \/ tok = Some [] -> out = Ok None) /\
  (forall t, tok = Some t -> sessions (db w) !! t = None -> out = Ok None) /\
  (forall t r, tok = Some t -> sessions (db w) !! t = Some r ->
     (expires r < now -> out = Ok None) /\
     (now <= expires r ->
      user_by_id (user_id r) (db w) = None -> out = Ok None) /\
     (now <= expires r ->
      forall u, user_by_id (user_id r) (db w) = Some u ->
        out = Ok (Some (mk_identity (user_id r) (username u))))) /\
  fst (session_get clock tok
         (mk_world (hide_passwords (db w)) (drawn w) (ticks w))) = out.
Proof.
  intros Hok out now. subst out.
  split; [intros [-> | ->]; reflexivity|].
  split; [intros t -> Ht; rewrite (session_get_unknown clock t w Ht); reflexivity|].
  split.
  - intros t r -> Ht.
    pose proof (stored_token_nonempty _ _ _ Hok Ht) as Hne.
    split; [|split].
    + intros Hexp. rewrite (session_get_expired clock t r w Hne Ht Hexp).
      reflexivity.
    + intros Hle Hu. rewrite (session_get_live clock t r w Hne Ht Hle), Hu.
      reflexivity.
    + intros Hle u Hu.
      rewrite (session_get_live clock t r w Hne Ht Hle), Hu.
      rewrite (user_by_id_id _ _ _ Hu). reflexivity.
  - set (wh := mk_world (hide_passwords (db w)) (drawn w) (ticks w)).
    destruct (session_get_cases tok w)
      as [[E Hc] | (t & r & -> & Hne & Ht & [[Hexp E] | [Hle E]])];
      rewrite E; cbn [fst].
    + destruct Hc as [-> | [-> | (t & -> & Ht)]]; try reflexivity.
      rewrite (session_get_unknown clock t wh Ht). reflexivity.
    + rewrite (session_get_expired clock t r wh Hne Ht Hexp). reflexivity.
    + rewrite (session_get_live clock t r wh Hne Ht Hle). cbn [fst db wh].
      rewrite user_by_id_hide.
      destruct (user_by_id (user_id r) (db w)); reflexivity.
Qed.

(** C9: [session_get] never touches the users and posts tables nor any
    session row other than the one of its token; and for no token or an
    empty one, for a token without a stored session, and for a stored
    session that has not expired, the whole store is exactly as before. *)
Theorem session_get_frame (tok : option pystr) (w : world) :
  let w' := snd (session_get clock tok w) in
  (users (db w') = users (db w) /\
   posts (db w') = posts (db w) /\
   forall t', tok <> Some t' -> sessions (db w') !! t' = sessions (db w) !! t') /\
  (tok = None \/ tok = Some [] \/
   (exists t, tok = Some t /\
      (sessions (db w) !! t = None \/
       exists r, sessions (db w) !! t = Some r /\ clock (ticks w) <= expires r)) ->
   db w' = db w).
Proof.
  intros w'. subst w'. split.
  - destruct (session_get_cases tok w)
      as [[E _] | (t & r & -> & Hne & Ht & [[Hexp E] | [Hle E]])];
      rewrite E; cbn [snd db delete_session users posts sessions];
      repeat split.
    intros t' Hneq. apply lookup_delete_ne. congruence.
  - intros [-> | [-> | (t & -> & [Ht | (r & Ht & Hle)])]]; try reflexivity.
    + rewrite (session_get_unknown clock t w Ht). reflexivity.
    + destruct (truthy t) eqn:Hne.
      * rewrite (session_get_live clock t r w Hne Ht Hle). reflexivity.
      * apply truthy_false in Hne as ->. reflexivity.
Qed.

End Resolver.

(** ** The cookie helper *)

Lemma contains_rev (c : N) (s : pystr) : contains c (rev s) = contains c s.
Proof.
  unfold contains. induction s as [|x r IH]; [reflexivity|].
  cbn [rev existsb]. rewrite existsb_app, IH. cbn [existsb].
  rewrite orb_false_r. apply orb_comm.
Qed.

Lemma contains_drop_while (p : N -> bool) (c : N) (s : pystr) :
  p c = false -> contains c (drop_while p s) = contains c s.
Proof.
  intros Hc. induction s as [|x r IH]; [reflexivity|].
  cbn [drop_while]. destruct (p x) eqn:Hx; [|reflexivity].
  rewrite IH. unfold contains. cbn [existsb].
  destruct (N.eqb_spec c x) as [-> |]; [congruence | reflexivity].
Qed.

Lemma contains_strip (c : N) (s : pystr) :
  is_space c = false -> contains c (strip s) = contains c s.
Proof.
  intros Hc. unfold strip, rstrip_by.
  rewrite contains_rev, (contains_drop_while _ _ _ Hc), contains_rev.
  apply (contains_drop_while _ _ _ Hc).
Qed.

(** The unpacking in [cookie_get] cannot fail: it is guarded by the test
    that the part has an equals sign. *)
Lemma cookie_scan_returns (name : pystr) (parts : list pystr) :
  exists o, cookie_scan name parts = Ok o.
Proof.
  induction parts as [|part rest IH]; [eexists; reflexivity|].
  cbn [cookie_scan]. destruct (contains (chr "=") part) eqn:Hp; [|exact IH].
  assert (Hs : contains (chr "=") (strip part) = true)
    by (rewrite contains_strip; [exact Hp | reflexivity]).
  destruct (split1_present _ _ Hs) as (k & v & ->). cbn [unpack2].
  destruct (PyStr.eqb k name); [eexists; reflexivity | exact IH].
Qed.

Lemma cookie_get_returns (env : environ) (name : pystr) :
  exists o, cookie_get env name = Ok o.
Proof. apply cookie_scan_returns. Qed.

(** ** Statements on the store *)

Lemma world_eta (w : world) : mk_world (db w) (drawn w) (ticks w) = w.
Proof. destruct w; reflexivity. Qed.

Lemma delete_session_absent (t : pystr) (d : database) :
  sessions d !! t = None -> delete_session t d = d.
Proof.
  intros Ht. destruct d as [us ss ps]. unfold delete_session.
  cbn [users sessions posts] in *. f_equal. apply delete_id, Ht.
Qed.

Lemma delete_session_twice (t : pystr) (d : database) :
  delete_session t (delete_session t d) = delete_session t d.
Proof.
  apply delete_session_absent. cbn [delete_session sessions].
  apply lookup_delete_eq.
Qed.

(** ** 4.4 The account routes *)

(** What [logout] does, by the value of the session cookie. *)
Lemma logout_run (env : environ) (w : world) (tok : option pystr) :
  cookie_get env (str "session") = Ok tok ->
  logout env w =
    (Ok (redirect (str "/") clear_cookie),
     match tok with
     | Some ((_ :: _) as t) => mk_world (delete_session t (db w)) (drawn w) (ticks w)
     | _ => w
     end).
Proof.
  intros Hc. unfold logout, bind, lift. rewrite Hc.
  destruct tok as [[|x t]|]; reflexivity.
Qed.

(** C8: [logout] revokes the token of the session cookie. Whatever the
    request, it raises nothing. The row stored under the token, if any, is
    gone afterwards and nothing else of the store changes; when no row is
    stored under it the store is exactly as before; and a second [logout]
    with the same request changes nothing more. *)
Theorem logout_revokes (env : environ) (w : world) :
  no_empty_token (db w) ->
  exists tok : option pystr,
    cookie_get env (str "session") = Ok tok /\
    let d' := match tok with
              | Some t => delete_session t (db w)
              | None => db w
              end in
    let w' := mk_world d' (drawn w) (ticks w) in
    let resp := redirect (str "/") clear_cookie in
    logout env w = (Ok resp, w') /\
    (forall t, tok = Some t ->
       sessions d' !! t = None /\
       (forall t', t' <> t -> sessions d' !! t' = sessions (db w) !! t') /\
       users d' = users (db w) /\ posts d' = posts (db w)) /\
    (forall t, tok = Some t -> sessions (db w) !! t = None -> w' = w) /\
    (tok = None -> w' = w) /\
    logout env w' = (Ok resp, w').
Proof.
  intros Hok. destruct (cookie_get_returns env (str "session")) as [tok Hc].
  exists tok. split; [exact Hc|]. intros d' w' resp.
  assert (Hrun : forall v, no_empty_token (db v) ->
            logout env v =
              (Ok resp,
               mk_world match tok with
                        | Some t => delete_session t (db v)
                        | None => db v
                        end (drawn v) (ticks v))).
  { intros v Hv. rewrite (logout_run env v tok Hc).
    destruct tok as [[|x t]|]; try reflexivity.
    - rewrite (delete_session_absent [] (db v) Hv), world_eta. reflexivity.
    - rewrite world_eta. reflexivity. }
  split; [apply Hrun, Hok|].
  split; [|split; [|split]].
  - intros t ->. subst d'. cbn [delete_session sessions users posts].
    repeat split; [apply lookup_delete_eq|].
    intros t' Hneq. apply lookup_delete_ne. congruence.
  - intros t -> Ht. subst w' d'.
    rewrite (delete_session_absent t (db w) Ht). apply world_eta.
  - intros ->. apply world_eta.
  - rewrite Hrun.
    + subst w' d'. cbn [db drawn ticks].
      destruct tok as [t|]; [rewrite delete_session_twice|]; reflexivity.
    + subst w' d'. cbn [db]. unfold no_empty_token in *.
      destruct tok as [t|]; [|exact Hok].
      cbn [delete_session sessions].
      destruct (decide (t = [])) as [-> | Hneq];
        [apply lookup_delete_eq | rewrite lookup_delete_ne by congruence; exact Hok].
Qed.

Section Routes.

Variable H : pystr -> pystr.
Variable urandom : nat -> byte.
Variable clock : nat -> Z.

Lemma signup_not_post (env : environ) (w : world) :
  REQUEST_METHOD env <> str "POST" ->
  signup H urandom clock env w =
    (Ok (ok_html (page SignupForm (str "Sign Up") None)), w).
Proof.
  intros Hm. unfold signup.
  destruct (PyStr.eqb (REQUEST_METHOD env) (str "POST")) eqn:E;
    [apply eqb_eq in E; contradiction | reflexivity].
Qed.

Lemma signup_missing_field (env : environ) (w : world) :
  REQUEST_METHOD env = str "POST" ->
  strip (getfirst env (str "username")) = [] \/
  getfirst env (str "password") = [] ->
  signup H urandom clock env w = (Ok all_fields_required, w).
Proof.
  intros Hm Hf. unfold signup. rewrite Hm, eqb_refl.
  destruct Hf as [-> | ->]; [reflexivity|].
  rewrite orb_true_r. reflexivity.
Qed.

(** [signup] on a username that has a row: the INSERT violates UNIQUE,
    after a salt was drawn and the clock read. *)
Lemma signup_taken (env : environ) (w : world) (u : user_row) :
  REQUEST_METHOD env = str "POST" ->
  let user := strip (getfirst env (str "username")) in
  user <> [] -> getfirst env (str "password") <> [] ->
  user_by_username user (db w) = Some u ->
  signup H urandom clock env w =
    (Ok username_taken, mk_world (db w) (drawn w + 8) (S (ticks w))).
Proof.
  intros Hm user Hu Hp Hrow. unfold signup. rewrite Hm, eqb_refl.
  fold user. rewrite (truthy_nonempty _ Hu), (truthy_nonempty _ Hp).
  cbn [negb orb].
  unfold try_except, bind. rewrite hash_pw_run.
  unfold time_now, execute, insert_user. cbn [db drawn ticks].
  rewrite Hrow. reflexivity.
Qed.

Lemma login_not_post (env : environ) (w : world) :
  REQUEST_METHOD env <> str "POST" ->
  login H urandom clock env w =
    (Ok (ok_html (page LoginForm (str "Login") None)), w).
Proof.
  intros Hm. unfold login.
  destruct (PyStr.eqb (REQUEST_METHOD env) (str "POST")) eqn:E;
    [apply eqb_eq in E; contradiction | reflexivity].
Qed.

Lemma login_unknown_user (env : environ) (w : world) :
  REQUEST_METHOD env = str "POST" ->
  user_by_username (getfirst env (str "username")) (db w) = None ->
  login H urandom clock env w = (Ok invalid_credentials, w).
Proof.
  intros Hm Hrow. unfold login. rewrite Hm, eqb_refl.
  unfold bind, query. rewrite Hrow. reflexivity.
Qed.

Lemma login_checked (env : environ) (w : world) (u : user_row) (good : bool) :
  REQUEST_METHOD env = str "POST" ->
  user_by_username (getfirst env (str "username")) (db w) = Some u ->
  check_pw H (getfirst env (str "password")) (password u) = Ok good ->
  login H urandom clock env w =
    if good then
      (let* tok := session_create urandom clock (id u) in
       ret (redirect (str "/") (session_cookie tok))) w
    else (Ok invalid_credentials, w).
Proof.
  intros Hm Hrow Hpw. unfold login. rewrite Hm, eqb_refl.
  unfold bind at 1. unfold query. rewrite Hrow.
  unfold bind at 1. unfold lift. rewrite Hpw.
  destruct good; reflexivity.
Qed.

Lemma user_by_username_inserted (name pw_hash : pystr) (now : Z) (d d' : database) :
  insert_user name pw_hash now d = Ok d' ->
  user_by_username name d'
    = Some (mk_user (next_rowid (users d)) name pw_hash now).
Proof.
  unfold insert_user, user_by_username.
  destruct (List.find _ (users d)) eqn:E; [discriminate|].
  intros [= <-]. cbn [users]. generalize (next_rowid (users d)). intros n.
  induction (users d) as [|r rs IH] in E |- *.
  - cbn. rewrite eqb_refl. reflexivity.
  - cbn [List.find app] in *.
    destruct (PyStr.eqb (username r) name); [discriminate | apply IH, E].
Qed.

(** [signup] on a new username, when the token drawn is not yet a key: a
    row with the next rowid, the salted hash of the password and the time
    of the INSERT, then a session for that row and its cookie. *)
Lemma signup_registers (env : environ) (w : world) :
  REQUEST_METHOD env = str "POST" ->
  let user := strip (getfirst env (str "username")) in
  let pw := getfirst env (str "password") in
  let salt := hexlify (List.map urandom (seq (drawn w) 8)) in
  let tok := next_token urandom (drawn w + 8) in
  let uid := next_rowid (users (db w)) in
  user <> [] -> pw <> [] ->
  user_by_username user (db w) = None ->
  sessions (db w) !! tok = None ->
  signup H urandom clock env w =
    (Ok (redirect (str "/") (session_cookie tok)),
     mk_world
       (mk_db (users (db w)
                 ++ [mk_user uid user (salt ++ str "$" ++ H (salt ++ pw))
                             (clock (ticks w))])
              (<[tok := mk_session uid (clock (S (ticks w)) + 604800)]>
                 (sessions (db w)))
              (posts (db w)))
       (drawn w + 8 + 32) (S (S (ticks w)))).
Proof.
  intros Hm user pw salt tok uid Hu Hp Hnew Hfresh. unfold signup.
  rewrite Hm, eqb_refl. fold user pw.
  rewrite (truthy_nonempty _ Hu), (truthy_nonempty _ Hp). cbn [negb orb].
  unfold try_except. unfold bind at 1. rewrite hash_pw_run. fold salt.
  unfold bind at 1. unfold time_now at 1. cbn [db drawn ticks].
  unfold bind at 1. unfold execute at 1. cbn [db drawn ticks].
  destruct (insert_user user (salt ++ str "$" ++ H (salt ++ pw))
              (clock (ticks w)) (db w)) as [d1 | e] eqn:Hins;
    [|unfold insert_user in Hins; rewrite Hnew in Hins; discriminate].
  unfold bind at 1. unfold query. cbn [db].
  rewrite (user_by_username_inserted _ _ _ _ _ Hins).
  unfold bind at 1. unfold lift. cbn [id]. fold uid.
  assert (Hd1 : d1 = mk_db (users (db w)
                              ++ [mk_user uid user (salt ++ str "$" ++ H (salt ++ pw))
                                          (clock (ticks w))])
                           (sessions (db w)) (posts (db w))).
  { unfold insert_user in Hins. rewrite Hnew in Hins.
    injection Hins as <-. reflexivity. }
  subst d1. unfold bind.
  rewrite session_create_run by exact Hfresh. reflexivity.
Qed.

(** C4 (as the code has it): when the trimmed, non-empty username of a
    POST to [signup] already has a row and the password is not empty, the
    INSERT fails on the UNIQUE constraint: the route answers with the
    Username taken page, and the store is exactly as before, the row of
    that user with its password hash included. *)
Theorem signup_duplicate_username
    (env : environ) (w : world) (u : user_row) :
  REQUEST_METHOD env = str "POST" ->
  let user := strip (getfirst env (str "username")) in
  user <> [] ->
  getfirst env (str "password") <> [] ->
  user_by_username user (db w) = Some u ->
  exists w',
    signup H urandom clock env w = (Ok username_taken, w') /\
    db w' = db w /\
    user_by_username user (db w') = Some u.
Proof.
  intros Hm user Hu Hp Hrow.
  eexists. split; [apply (signup_taken env w u Hm Hu Hp Hrow)|].
  split; [reflexivity | exact Hrow].
Qed.

(** C5: a POST to [login] with a username that has no row, and one with
    a username that has a row but a password [check_pw] rejects, get the
    same response, the Invalid credentials page, and neither changes
    anything: no table, no byte drawn, no clock reading. *)
Theorem login_failures_indistinguishable
    (env1 env2 : environ) (w1 w2 : world) (u : user_row) :
  REQUEST_METHOD env1 = str "POST" ->
  REQUEST_METHOD env2 = str "POST" ->
  user_by_username (getfirst env1 (str "username")) (db w1) = None ->
  user_by_username (getfirst env2 (str "username")) (db w2) = Some u ->
  check_pw H (getfirst env2 (str "password")) (password u) = Ok false ->
  login H urandom clock env1 w1 = (Ok invalid_credentials, w1) /\
  login H urandom clock env2 w2 = (Ok invalid_credentials, w2) /\
  fst (login H urandom clock env1 w1) = fst (login H urandom clock env2 w2).
Proof.
  intros Hm1 Hm2 Hnone Hrow Hbad.
  rewrite (login_unknown_user env1 w1 Hm1 Hnone).
  rewrite (login_checked env2 w2 u false Hm2 Hrow Hbad).
  repeat split.
Qed.

(** C10: a request to [signup] whose username is empty once trimmed, or
    whose password is empty, returns a page and leaves the state exactly
    as it was: no user row, no session row, nothing drawn. A POST gets
    the All fields required page. *)
Theorem signup_requires_fields (env : environ) (w : world) :
  strip (getfirst env (str "username")) = [] \/
  getfirst env (str "password") = [] ->
  exists resp,
    signup H urandom clock env w = (Ok resp, w) /\
    (REQUEST_METHOD env = str "POST" -> resp = all_fields_required).
Proof.
  intros Hf.
  destruct (decide (REQUEST_METHOD env = str "POST")) as [Hm | Hm].
  - exists all_fields_required.
    split; [apply (signup_missing_field env w Hm Hf) | reflexivity].
  - eexists. split; [apply (signup_not_post env w Hm) | contradiction].
Qed.

End Routes.

(** ** The store invariant

    Every computation of the program keeps [no_empty_token]: the only
    INSERT into sessions is of a token of [token_urlsafe], never empty. *)

Section Invariant.

Variable H : pystr -> pystr.
Variable urandom : nat -> byte.
Variable clock : nat -> Z.

Lemma keeps_ret {A} (a : A) : keeps (ret a).
Proof. intros w Hw. exact Hw. Qed.

Lemma keeps_lift {A} (r : result A) : keeps (lift r).
Proof. intros w Hw. exact Hw. Qed.

Lemma keeps_query {A} (q : database -> A) : keeps (query q).
Proof. intros w Hw. exact Hw. Qed.

Lemma keeps_time_now : keeps (time_now clock).
Proof. intros w Hw. exact Hw. Qed.

Lemma keeps_token_bytes (n : nat) : keeps (token_bytes urandom n).
Proof. intros w Hw. exact Hw. Qed.

Lemma keeps_bind {A B} (m : M A) (k : A -> M B) :
  keeps m -> (forall a, keeps (k a)) -> keeps (bind m k).
Proof.
  intros Hm Hk w Hw. unfold bind.
  specialize (Hm w Hw). destruct (m w) as [[a | e] w1]; cbn [snd] in *.
  - apply Hk, Hm.
  - exact Hm.
Qed.

Lemma keeps_try_except {A} (m h : M A) (e : exn) :
  keeps m -> keeps h -> keeps (try_except m e h).
Proof.
  intros Hm Hh w Hw. unfold try_except.
  specialize (Hm w Hw). destruct (m w) as [[a | e'] w1]; cbn [snd] in *.
  - exact Hm.
  - destruct (bool_decide (e' = e)); [apply Hh, Hm | exact Hm].
Qed.

Lemma keeps_execute (stmt : database -> result database) :
  (forall d d', no_empty_token d -> stmt d = Ok d' -> no_empty_token d') ->
  keeps (execute stmt).
Proof.
  intros Hs w Hw. unfold execute.
  destruct (stmt (db w)) as [d' | e] eqn:E; cbn [snd db].
  - exact (Hs _ _ Hw E).
  - exact Hw.
Qed.

Lemma keeps_delete (t : pystr) :
  keeps (execute (fun d => Ok (delete_session t d))).
Proof.
  apply keeps_execute. intros d d' Hd [= <-].
  unfold no_empty_token in *. cbn [delete_session sessions].
  destruct (decide (t = [])) as [-> | Hneq];
    [apply lookup_delete_eq | rewrite lookup_delete_ne by congruence; exact Hd].
Qed.

Lemma keeps_insert_user (name pw : pystr) (now : Z) :
  keeps (execute (insert_user name pw now)).
Proof.
  apply keeps_execute. intros d d' Hd. unfold insert_user.
  destruct (user_by_username name d); [discriminate|].
  intros [= <-]. exact Hd.
Qed.

Lemma keeps_hash_pw (pw : pystr) : keeps (hash_pw H urandom pw).
Proof. intros w Hw. exact Hw. Qed.

Lemma keeps_session_create (uid : Z) : keeps (session_create urandom clock uid).
Proof.
  intros w Hw.
  destruct (sessions (db w) !! next_token urandom (drawn w)) as [r|] eqn:E.
  - rewrite (session_create_collision urandom clock uid w r E). exact Hw.
  - rewrite (session_create_run urandom clock uid w E).
    unfold no_empty_token in *. cbn [snd db sessions].
    rewrite lookup_insert_ne; [exact Hw | apply next_token_nonempty].
Qed.

Lemma keeps_session_get (tok : option pystr) : keeps (session_get clock tok).
Proof.
  destruct tok as [t|]; [|apply keeps_ret].
  unfold session_get. destruct (negb (truthy t)); [apply keeps_ret|].
  apply keeps_bind; [apply keeps_query|]. intros [r|]; [|apply keeps_ret].
  apply keeps_bind; [apply keeps_time_now|]. intros now.
  destruct (expires r <? now).
  - apply keeps_bind; [apply keeps_delete | intros; apply keeps_ret].
  - apply keeps_bind; [apply keeps_query | intros; apply keeps_ret].
Qed.

Lemma keeps_signup (env : environ) : keeps (signup H urandom clock env).
Proof.
  unfold signup.
  destruct (PyStr.eqb (REQUEST_METHOD env) (str "POST")); [|apply keeps_ret].
  destruct (_ || _); [apply keeps_ret|].
  apply keeps_try_except; [|apply keeps_ret].
  apply keeps_bind; [apply keeps_hash_pw|]. intros stored.
  apply keeps_bind; [apply keeps_time_now|]. intros now.
  apply keeps_bind; [apply keeps_insert_user|]. intros _.
  apply keeps_bind; [apply keeps_query|]. intros r.
  apply keeps_bind; [apply keeps_lift|]. intros uid.
  apply keeps_bind; [apply keeps_session_create | intros; apply keeps_ret].
Qed.

Lemma keeps_login (env : environ) : keeps (login H urandom clock env).
Proof.
  unfold login.
  destruct (PyStr.eqb (REQUEST_METHOD env) (str "POST")); [|apply keeps_ret].
  apply keeps_bind; [apply keeps_query|]. intros [u|]; [|apply keeps_ret].
  apply keeps_bind; [apply keeps_lift|]. intros [|]; [|apply keeps_ret].
  apply keeps_bind; [apply keeps_session_create | intros; apply keeps_ret].
Qed.

Lemma keeps_logout (env : environ) : keeps (logout env).
Proof.
  unfold logout.
  apply keeps_bind; [apply keeps_lift|]. intros tok.
  apply keeps_bind; [|intros; apply keeps_ret].
  destruct tok as [t|]; [|apply keeps_ret].
  destruct (truthy t); [apply keeps_delete | apply keeps_ret].
Qed.

End Invariant.

Lemma no_empty_token_initially : no_empty_token empty_db.
Proof. reflexivity. Qed.

(** * The properties on concrete runs *)

Import Run.

(** Bob's sign-up, as the program runs it: he gets row 1 and a session of
    seven days. *)
Example bob_signed_up :
  List.map (fun u => (id u, username u, created_at u)) (users (db w_bob))
    = [(1, str "bob", 1700000000)] /\
  bob_stored = str "0b30557a9fc4e90e$6bddd6376cd93421fbc39b2c0ab600cf3a8b5b23e14d961be294e3be1b109f36" /\
  bob_token = str "M1h9osfsETZbgKXK7xQ5XoOozfIXPGGGq9D1Gj9kia4" /\
  sessions (db w_bob) !! bob_token = Some (mk_session 1 1700604900) /\
  drawn w_bob = 40%nat /\ ticks w_bob = 2%nat.
Proof. vm_compute. repeat split. Qed.

(** Then: his password logs him in and another does not, his session
    cookie identifies him, and after logging out it no longer does. *)
Example bob_logs_in_and_out :
  fst (login Sha256.hexdigest rnd clk (post_form "bob" "secret123") w_bob)
    = Ok (redirect (str "/") (session_cookie (next_token rnd 40))) /\
  fst (login Sha256.hexdigest rnd clk (post_form "bob" "bad") w_bob)
    = Ok invalid_credentials /\
  fst (session_get clk (Some bob_token) w_bob)
    = Ok (Some (mk_identity 1 (str "bob"))) /\
  fst (session_get clk (Some bob_token)
         (snd (logout (with_cookie (str "session=" ++ bob_token)) w_bob)))
    = Ok None.
Proof. vm_compute. repeat split. Qed.

Lemma w_bob_ok : no_empty_token (db w_bob).
Proof. vm_compute. reflexivity. Defined.

(** C3 on bob's session: one second past the expiry it is refused and
    deleted, at the expiry it resolves to user 1. *)
Lemma session_expiry_exclusive_witness :
  session_get late (Some bob_token) w_bob
    = (Ok None,
       mk_world (delete_session bob_token (db w_bob)) (drawn w_bob)
                (S (ticks w_bob))) /\
  session_resolve at_expiry (Some bob_token) w_bob
    = (Ok (Some 1), mk_world (db w_bob) (drawn w_bob) (S (ticks w_bob))).
Proof.
  assert (Hrow : sessions (db w_bob) !! bob_token = Some (mk_session 1 1700604900))
    by (vm_compute; reflexivity).
  split.
  - destruct (session_expiry_exclusive late bob_token _ w_bob w_bob_ok Hrow)
      as [Hexp _].
    apply Hexp. vm_compute. reflexivity.
  - destruct (session_expiry_exclusive at_expiry bob_token _ w_bob w_bob_ok Hrow)
      as [_ Heq].
    apply Heq. vm_compute. reflexivity.
Defined.

(** C6 at bob's store: a second session for user 1. *)
Lemma session_create_then_resolve_witness :
  exists w1,
    session_create rnd clk 1 w_bob = (Ok (next_token rnd (drawn w_bob)), w1) /\
    session_resolve clk (Some (next_token rnd (drawn w_bob))) w1
      = (Ok (Some 1), mk_world (db w1) (drawn w1) (S (ticks w1))).
Proof.
  destruct (session_create_then_resolve rnd clk 1 w_bob)
    as (w1 & Hc & _ & _ & _ & _ & Hr & _).
  - vm_compute. reflexivity.
  - vm_compute. discriminate.
  - exists w1. split; [exact Hc | exact Hr].
Defined.

(** C4 at bob's store: a second sign-up as bob with another password. *)
Lemma signup_duplicate_username_witness :
  exists w',
    signup Sha256.hexdigest rnd clk (post_form "bob" "pw2") w_bob
      = (Ok username_taken, w') /\
    db w' = db w_bob.
Proof.
  destruct (signup_duplicate_username Sha256.hexdigest rnd clk
              (post_form "bob" "pw2") w_bob
              (mk_user 1 (str "bob") bob_stored 1700000000))
    as (w' & Hs & Hd & _).
  - reflexivity.
  - vm_compute. discriminate.
  - vm_compute. discriminate.
  - vm_compute. reflexivity.
  - exists w'. split; [exact Hs | exact Hd].
Defined.

(** C4, with bob registered and a sign-up as bob with an empty password:
    the answer is the All fields required page, not Username taken. *)
Lemma signup_duplicate_username_counterexample :
  user_by_username (str "bob") (db w_bob)
    = Some (mk_user 1 (str "bob") bob_stored 1700000000) /\
  signup Sha256.hexdigest rnd clk (post_form "bob" "") w_bob
    = (Ok all_fields_required, w_bob) /\
  all_fields_required <> username_taken.
Proof.
  split; [vm_compute; reflexivity|].
  split; [vm_compute; reflexivity | discriminate].
Qed.

(** C5 at bob's store: alice is unknown, bob's password is not bad. *)
Lemma login_failures_indistinguishable_witness :
  fst (login Sha256.hexdigest rnd clk (post_form "alice" "secret123") w_bob)
  = fst (login Sha256.hexdigest rnd clk (post_form "bob" "bad") w_bob).
Proof.
  apply (login_failures_indistinguishable Sha256.hexdigest rnd clk
           (post_form "alice" "secret123") (post_form "bob" "bad") w_bob w_bob
           (mk_user 1 (str "bob") bob_stored 1700000000)).
  - reflexivity.
  - reflexivity.
  - vm_compute. reflexivity.
  - vm_compute. reflexivity.
  - vm_compute. reflexivity.
Defined.

(** C7 at bob's store, while his session is live. *)
Lemma session_get_outcomes_witness :
  fst (session_get clk (Some bob_token) w_bob)
    = Ok (Some (mk_identity 1 (str "bob"))) /\
  fst (session_get clk (Some (str "no-such-token")) w_bob) = Ok None.
Proof.
  split.
  - destruct (session_get_outcomes clk (Some bob_token) w_bob w_bob_ok)
      as (_ & _ & Hrow & _).
    destruct (Hrow bob_token (mk_session 1 1700604900)) as (_ & _ & Hlive).
    + reflexivity.
    + vm_compute. reflexivity.
    + apply (Hlive ltac:(vm_compute; discriminate)
                   (mk_user 1 (str "bob") bob_stored 1700000000)).
      vm_compute. reflexivity.
  - destruct (session_get_outcomes clk (Some (str "no-such-token")) w_bob w_bob_ok)
      as (_ & Hnone & _).
    apply (Hnone (str "no-such-token")); [reflexivity | vm_compute; reflexivity].
Defined.

(** C7, with bob's session stored and his row present, one second past the
    expiry: the token is not empty, a session is stored under it and its
    user has a row, and the result is [None]. *)
Lemma session_get_outcomes_counterexample :
  bob_token <> [] /\
  sessions (db w_bob) !! bob_token = Some (mk_session 1 1700604900) /\
  user_by_id 1 (db w_bob) = Some (mk_user 1 (str "bob") bob_stored 1700000000) /\
  fst (session_get late (Some bob_token) w_bob) = Ok None.
Proof.
  split; [vm_compute; discriminate|].
  repeat split; vm_compute; reflexivity.
Qed.

(** C8 at bob's store: logging out with his cookie removes his session. *)
Lemma logout_revokes_witness :
  exists w',
    logout (with_cookie (str "session=" ++ bob_token)) w_bob
      = (Ok (redirect (str "/") clear_cookie), w') /\
    sessions (db w') !! bob_token = None /\
    logout (with_cookie (str "session=" ++ bob_token)) w' 
      = (Ok (redirect (str "/") clear_cookie), w').
Proof.
  destruct (logout_revokes (with_cookie (str "session=" ++ bob_token)) w_bob w_bob_ok)
    as (tok & Hc & Hrun & Hgone & _ & _ & Hagain).
  assert (Htok : tok = Some bob_token).
  { assert (E : cookie_get (with_cookie (str "session=" ++ bob_token)) (str "session")
                = Ok (Some bob_token)) by (vm_compute; reflexivity).
    rewrite E in Hc. injection Hc as <-. reflexivity. }
  eexists. split; [exact Hrun|]. split; [|exact Hagain].
  destruct (Hgone bob_token Htok) as [Hnone _]. exact Hnone.
Defined.

(** C9 at bob's store: a live session, an unknown token, no token. *)
Lemma session_get_frame_witness :
  db (snd (session_get clk (Some bob_token) w_bob)) = db w_bob /\
  db (snd (session_get clk (Some (str "no-such-token")) w_bob)) = db w_bob /\
  db (snd (session_get clk None w_bob)) = db w_bob.
Proof.
  split; [|split].
  - apply (session_get_frame clk (Some bob_token) w_bob).
    right. right. exists bob_token. split; [reflexivity|].
    right. exists (mk_session 1 1700604900).
    split; [vm_compute; reflexivity | vm_compute; discriminate].
  - apply (session_get_frame clk (Some (str "no-such-token")) w_bob).
    right. right. eexists. split; [reflexivity|].
    left. vm_compute. reflexivity.
  - apply (session_get_frame clk None w_bob). left. reflexivity.
Defined.

(** C10 at bob's store: a username of blanks, and an empty password. *)
Lemma signup_requires_fields_witness :
  signup Sha256.hexdigest rnd clk (post_form "  " "secret123") w_bob
    = (Ok all_fields_required, w_bob) /\
  signup Sha256.hexdigest rnd clk (post_form "carol" "") w_bob
    = (Ok all_fields_required, w_bob).
Proof.
  split.
  - destruct (signup_requires_fields Sha256.hexdigest rnd clk
                (post_form "  " "secret123") w_bob) as (resp & Hs & Hr).
    + left. vm_compute. reflexivity.
    + rewrite Hs, (Hr eq_refl). reflexivity.
  - destruct (signup_requires_fields Sha256.hexdigest rnd clk
                (post_form "carol" "") w_bob) as (resp & Hs & Hr).
    + right. vm_compute. reflexivity.
    + rewrite Hs, (Hr eq_refl). reflexivity.
Defined.

(** * More of the program *)

(** ** More on splitting and stripping *)

Lemma split1_inv (c : N) (s k v : pystr) :
  split1 c s = [k; v] -> s = k ++ c :: v /\ contains c k = false.
Proof.
  revert k. induction s as [|x r IH]; intros k; cbn [split1]; [discriminate|].
  destruct (N.eqb_spec x c) as [-> | Hx].
  - intros [= <- <-]. split; reflexivity.
  - destruct (split1 c r) as [|p [|q [|? ?]]] eqn:E; try discriminate.
    intros [= <- <-]. destruct (IH p eq_refl) as [-> Hp].
    split; [reflexivity|]. unfold contains in *. cbn [existsb].
    rewrite Hp, orb_false_r. apply N.eqb_neq. congruence.
Qed.

Lemma split_nonempty (c : N) (s : pystr) : split c s <> [].
Proof.
  destruct s as [|x r]; cbn [split]; [discriminate|].
  destruct (N.eqb x c); [discriminate|]. destruct (split c r); discriminate.
Qed.

Lemma split_absent (c : N) (s : pystr) :
  contains c s = false -> split c s = [s].
Proof.
  induction s as [|x r IH]; cbn [split]; [reflexivity|].
  unfold contains. cbn [existsb]. rewrite (N.eqb_sym c x).
  destruct (N.eqb x c); cbn [orb]; [discriminate|].
  intros Hr. rewrite (IH Hr). reflexivity.
Qed.

Lemma split_app (c : N) (a b : pystr) :
  split c (a ++ c :: b) = split c a ++ split c b.
Proof.
  induction a as [|x r IH]; cbn [app split].
  - rewrite N.eqb_refl. reflexivity.
  - destruct (N.eqb x c); [rewrite IH; reflexivity|].
    rewrite IH. destruct (split c r) as [|p ps] eqn:E;
      [destruct (split_nonempty c r E) | reflexivity].
Qed.

Lemma drop_while_head (p : N -> bool) (x : N) (s : pystr) :
  p x = false -> drop_while p (x :: s) = x :: s.
Proof. intros Hx. cbn [drop_while]. rewrite Hx. reflexivity. Qed.

Lemma rstrip_by_last (p : N -> bool) (s : pystr) (x : N) :
  p x = false -> rstrip_by p (s ++ [x]) = s ++ [x].
Proof.
  intros Hx. unfold rstrip_by. rewrite rev_app_distr. cbn [rev app].
  rewrite (drop_while_head p x _ Hx). cbn [rev].
  rewrite rev_involutive. reflexivity.
Qed.

Lemma rstrip_by_drop (p : N -> bool) (s : pystr) (x : N) :
  p x = true -> rstrip_by p (s ++ [x]) = rstrip_by p s.
Proof.
  intros Hx. unfold rstrip_by. rewrite rev_app_distr. cbn [rev app drop_while].
  rewrite Hx. reflexivity.
Qed.

(** Stripping changes nothing when both ends are not blanks. *)
Lemma strip_ends (x y : N) (s : pystr) :
  is_space x = false -> is_space y = false ->
  strip (x :: s ++ [y]) = x :: s ++ [y].
Proof.
  intros Hx Hy. unfold strip. rewrite (drop_while_head _ _ _ Hx).
  change (x :: s ++ [y]) with ((x :: s) ++ [y]).
  apply rstrip_by_last, Hy.
Qed.

Lemma drop_while_suffix (p : N -> bool) (s : pystr) :
  exists a, s = a ++ drop_while p s /\ forallb p a = true.
Proof.
  induction s as [|x r (a & Ha & Hp)]; [exists []; split; reflexivity|].
  cbn [drop_while]. destruct (p x) eqn:Hx.
  - exists (x :: a). split; [cbn [app]; congruence|].
    cbn [forallb]. rewrite Hx, Hp. reflexivity.
  - exists []. split; reflexivity.
Qed.

Lemma drop_while_done (p : N -> bool) (s : pystr) :
  match drop_while p s with x :: _ => p x = false | [] => True end.
Proof.
  induction s as [|x r IH]; cbn [drop_while]; [exact I|].
  destruct (p x) eqn:Hx; [exact IH | exact Hx].
Qed.

(** ** [cookie_get] *)

Lemma cookie_get_header (env : environ) (name : pystr) :
  cookie_get env name =
    cookie_get (cookie_request (match HTTP_COOKIE env with
                                | Some c => c
                                | None => []
                                end)) name.
Proof. unfold cookie_get. destruct (HTTP_COOKIE env); reflexivity. Qed.

Lemma cookie_scan_app (name : pystr) (l1 l2 : list pystr) :
  cookie_scan name (l1 ++ l2) =
    match cookie_scan name l1 with
    | Ok None => cookie_scan name l2
    | r => r
    end.
Proof.
  induction l1 as [|part rest IH]; cbn [app cookie_scan]; [reflexivity|].
  destruct (contains (chr "=") part); [|exact IH].
  destruct (unpack2 _) as [[k v] | e]; [|reflexivity].
  destruct (PyStr.eqb k name); [reflexivity | exact IH].
Qed.

Lemma split_parts_no_sep (c : N) (s p : pystr) :
  In p (split c s) -> contains c p = false.
Proof.
  revert p. induction s as [|x r IH]; intros p; cbn [split].
  - intros [<- | []]. reflexivity.
  - destruct (N.eqb_spec x c) as [-> | Hx].
    + intros [<- | Hin]; [reflexivity | apply IH, Hin].
    + destruct (split c r) as [|q qs] eqn:E; [destruct (split_nonempty c r E)|].
      intros [<- | Hin].
      * unfold contains in *. cbn [existsb].
        rewrite (IH q (or_introl eq_refl)), orb_false_r.
        apply N.eqb_neq. congruence.
      * apply IH. right. exact Hin.
Qed.

Lemma contains_drop_while_le (p : N -> bool) (c : N) (s : pystr) :
  contains c s = false -> contains c (drop_while p s) = false.
Proof.
  induction s as [|x r IH]; [reflexivity|]. cbn [drop_while].
  destruct (p x); [|tauto]. unfold contains in *. cbn [existsb].
  intros Hc. apply orb_false_elim in Hc as [_ Hc]. apply IH, Hc.
Qed.

Lemma contains_strip_le (c : N) (s : pystr) :
  contains c s = false -> contains c (strip s) = false.
Proof.
  intros Hc. unfold strip, rstrip_by. rewrite contains_rev.
  apply contains_drop_while_le. rewrite contains_rev.
  apply contains_drop_while_le, Hc.
Qed.

Lemma cookie_scan_found (name v : pystr) (parts : list pystr) :
  cookie_scan name parts = Ok (Some v) ->
  exists part, In part parts /\ strip part = name ++ chr "=" :: v /\
               contains (chr "=") name = false.
Proof.
  induction parts as [|part rest IH]; cbn [cookie_scan]; [discriminate|].
  destruct (contains (chr "=") part) eqn:Hp.
  - destruct (split1 (chr "=") (strip part)) as [|k [|v' [|? ?]]] eqn:E;
      cbn [unpack2]; try discriminate.
    destruct (PyStr.eqb k name) eqn:Hk.
    + apply eqb_eq in Hk as ->. intros [= ->].
      destruct (split1_inv _ _ _ _ E) as [Hs Hn].
      exists part. split; [left; reflexivity | split; assumption].
    + intros Hr. destruct (IH Hr) as (q & Hin & Hq). exists q.
      split; [right; exact Hin | exact Hq].
  - intros Hr. destruct (IH Hr) as (q & Hin & Hq). exists q.
    split; [right; exact Hin | exact Hq].
Qed.

(** X1: [cookie_get] never raises, whatever the header: the unpacking
    [k,v = ...split('=',1)] is reached only for a part that has an equals
    sign, and stripping keeps it, so the split always has two elements.
    Without a Cookie header the result is [None]. *)
Theorem cookie_get_never_raises (env : environ) (name : pystr) :
  (exists o, cookie_get env name = Ok o) /\
  cookie_get (mk_environ (REQUEST_METHOD env) None (form env)) name = Ok None.
Proof.
  split; [apply cookie_scan_returns | reflexivity].
Qed.

(** X2: When [cookie_get] returns a value, the header has a part, between
    semicolons, that once stripped reads [name=value]; the name has no equals
    sign and the value no semicolon. *)
Theorem cookie_get_sound (env : environ) (name v : pystr) :
  cookie_get env name = Ok (Some v) ->
  exists header part,
    HTTP_COOKIE env = Some header /\
    In part (split (chr ";") header) /\
    strip part = name ++ chr "=" :: v /\
    contains (chr "=") name = false /\
    contains (chr ";") v = false.
Proof.
  unfold cookie_get. destruct (HTTP_COOKIE env) as [header|]; [|discriminate].
  intros Hs. destruct (cookie_scan_found _ _ _ Hs) as (part & Hin & Hp & Hn).
  exists header, part. repeat split; try assumption.
  pose proof (contains_strip_le _ _ (split_parts_no_sep _ _ _ Hin)) as Hc.
  rewrite Hp, contains_app in Hc. apply orb_false_elim in Hc as [_ Hc].
  unfold contains in *. cbn [existsb] in Hc.
  apply orb_false_elim in Hc as [_ Hc]. exact Hc.
Qed.

(** X3: Cookies are read left to right and the first one with the name wins:
    on a header [a;b], [cookie_get] is its result on [a] when that is a
    value, and its result on [b] otherwise. *)
Theorem cookie_get_first_match (a b name : pystr) :
  cookie_get (cookie_request (a ++ chr ";" :: b)) name =
    match cookie_get (cookie_request a) name with
    | Ok (Some v) => Ok (Some v)
    | _ => cookie_get (cookie_request b) name
    end.
Proof.
  unfold cookie_get, cookie_request. cbn [HTTP_COOKIE].
  rewrite split_app, cookie_scan_app.
  destruct (cookie_scan_returns name (split (chr ";") a)) as [[v|] ->];
    reflexivity.
Qed.

(** ** The tokens of [secrets] *)

Lemma url_safe_b64_char (n : N) : url_safe (b64_char n) = true.
Proof.
  unfold url_safe, b64_char.
  destruct (N.ltb_spec n 26); [|destruct (N.ltb_spec n 52);
    [|destruct (N.ltb_spec n 62); [|destruct (N.eqb_spec n 62)]]];
  repeat match goal with
         | |- context [N.leb ?a ?b] => destruct (N.leb_spec a b)
         | |- context [N.eqb ?a ?b] => destruct (N.eqb_spec a b)
         end; cbn; try reflexivity; lia.
Qed.

Section Tokens.

Variable urandom : nat -> byte.

(** The token [secrets.token_urlsafe(32)] yields, whatever the random bytes:
    43 characters, each a letter, a digit, a hyphen or an underscore (the
    padding is stripped). *)
Lemma next_token_shape (n : nat) :
  length (next_token urandom n) = 43%nat /\
  forallb url_safe (next_token urandom n) = true.
Proof.
  unfold next_token. cbn [seq List.map urlsafe_b64encode app].
  unfold rstrip_by. cbn [rev app]. cbn [drop_while].
  rewrite N.eqb_refl, b64_char_not_pad. cbn [rev app].
  split; [reflexivity|].
  cbn [forallb]. rewrite !url_safe_b64_char. reflexivity.
Qed.

End Tokens.

(** ** Cookies round trip *)

Lemma plain_no_semicolon (s : pystr) :
  forallb plain s = true -> contains (chr ";") s = false.
Proof.
  induction s as [|x r IH]; [reflexivity|]. cbn [forallb].
  intros Hs. apply andb_prop in Hs as [Hx Hr]. unfold contains. cbn [existsb].
  fold (contains (chr ";") r). rewrite (IH Hr), orb_false_r.
  unfold plain in Hx. apply andb_prop in Hx as [_ Hx].
  rewrite N.eqb_sym. apply negb_true_iff, Hx.
Qed.

Lemma plain_head (x : N) : plain x = true -> is_space x = false.
Proof.
  unfold plain. intros Hx. apply andb_prop in Hx as [Hx _].
  apply negb_true_iff, Hx.
Qed.

Lemma strip_plain (s : pystr) : forallb plain s = true -> strip s = s.
Proof.
  intros Hs. unfold strip, rstrip_by.
  assert (Hd : forall l, forallb plain l = true -> drop_while is_space l = l).
  { intros [|x l] Hl; [reflexivity|]. cbn [forallb] in Hl.
    apply andb_prop in Hl as [Hx _].
    apply drop_while_head, plain_head, Hx. }
  rewrite (Hd s Hs), Hd, rev_involutive; [reflexivity|].
  apply forallb_forall. intros x Hx. apply in_rev in Hx.
  exact (proj1 (forallb_forall _ _) Hs x Hx).
Qed.

Lemma cookie_scan_single (name t : pystr) (rest : list pystr) :
  forallb plain (name ++ t) = true ->
  contains (chr "=") name = false ->
  cookie_scan name ((name ++ chr "=" :: t) :: rest) = Ok (Some t).
Proof.
  intros Hp Hn. cbn [cookie_scan].
  assert (Hh : forallb plain (name ++ chr "=" :: t) = true).
  { rewrite forallb_app in *. apply andb_prop in Hp as [-> Ht].
    cbn [forallb andb]. rewrite Ht. reflexivity. }
  rewrite contains_app. unfold contains at 2. cbn [existsb].
  rewrite N.eqb_refl, orb_true_r.
  rewrite (strip_plain _ Hh), (split1_first _ _ _ Hn). cbn [unpack2].
  rewrite eqb_refl. reflexivity.
Qed.

Lemma cookie_get_plain (name t : pystr) :
  forallb plain (name ++ t) = true ->
  contains (chr "=") name = false ->
  cookie_get (cookie_request (name ++ chr "=" :: t)) name = Ok (Some t).
Proof.
  intros Hp Hn. unfold cookie_get, cookie_request. cbn [HTTP_COOKIE].
  rewrite split_absent; [apply cookie_scan_single; assumption|].
  rewrite contains_app.
  rewrite forallb_app in Hp. apply andb_prop in Hp as [Hp1 Hp2].
  rewrite (plain_no_semicolon _ Hp1). unfold contains. cbn [existsb orb].
  apply (plain_no_semicolon _ Hp2).
Qed.

(** X4: A cookie round trip: when the name and the value have no blank and no
    semicolon, and the name no equals sign, [cookie_get] reads the value
    back from the header [name=value], also when attributes or other
    cookies follow after a semicolon. *)
Theorem cookie_get_round_trip (name t more : pystr) :
  forallb plain (name ++ t) = true ->
  contains (chr "=") name = false ->
  cookie_get (cookie_request (name ++ chr "=" :: t)) name = Ok (Some t) /\
  cookie_get (cookie_request ((name ++ chr "=" :: t) ++ chr ";" :: more)) name
    = Ok (Some t).
Proof.
  intros Hp Hn.
  assert (Hs : split (chr ";") (name ++ chr "=" :: t) = [name ++ chr "=" :: t]).
  { apply split_absent. rewrite contains_app.
    rewrite forallb_app in Hp. apply andb_prop in Hp as [Hp1 Hp2].
    rewrite (plain_no_semicolon _ Hp1). unfold contains. cbn [existsb orb].
    apply (plain_no_semicolon _ Hp2). }
  unfold cookie_get, cookie_request. cbn [HTTP_COOKIE]. split.
  - rewrite Hs. apply cookie_scan_single; assumption.
  - rewrite split_app, Hs. cbn [app]. apply cookie_scan_single; assumption.
Qed.

Lemma url_safe_plain (s : pystr) :
  forallb url_safe s = true -> forallb plain s = true.
Proof.
  intros Hs. apply forallb_forall. intros x Hx.
  pose proof (proj1 (forallb_forall _ _) Hs x Hx) as Hu.
  unfold url_safe in Hu.
  rewrite ?orb_true_iff, ?andb_true_iff, ?N.leb_le, ?N.eqb_eq in Hu.
  unfold plain. apply andb_true_intro. split; apply negb_true_iff.
  - apply not_true_is_false. unfold is_space. intros Hsp.
    rewrite ?orb_true_iff, ?andb_true_iff, ?N.leb_le, ?N.eqb_eq in Hsp. lia.
  - apply N.eqb_neq. unfold chr. cbn [N_of_ascii]. intros ->.
    cbv in Hu. intuition congruence.
Qed.

(** ** More on the password hasher *)

Lemma hex_digit_lower (n : N) : (n < 16)%N -> hex_lower (hex_digit n) = true.
Proof.
  intros Hn. unfold hex_lower, hex_digit.
  destruct (N.ltb_spec n 10);
    rewrite ?orb_true_iff, ?andb_true_iff, ?N.leb_le; lia.
Qed.

Lemma hex_digit_inj (m n : N) :
  (m < 16)%N -> (n < 16)%N -> hex_digit m = hex_digit n -> m = n.
Proof.
  unfold hex_digit. intros Hm Hn.
  destruct (N.ltb_spec m 10), (N.ltb_spec n 10); lia.
Qed.

Lemma byte_bound (b : byte) : (Byte.to_N b < 256)%N.
Proof. pose proof (Byte.to_N_bounded b). lia. Qed.

Lemma hexlify_length (bs : list byte) :
  length (hexlify bs) = (2 * length bs)%nat.
Proof.
  unfold hexlify. induction bs as [|b r IH]; [reflexivity|].
  cbn [flat_map app length]. rewrite IH. lia.
Qed.

Lemma hexlify_lower (bs : list byte) : forallb hex_lower (hexlify bs) = true.
Proof.
  unfold hexlify. induction bs as [|b r IH]; [reflexivity|].
  cbn [flat_map app forallb]. rewrite IH.
  pose proof (byte_bound b).
  rewrite !hex_digit_lower; [reflexivity | |].
  - apply N.mod_lt. lia.
  - apply N.Div0.div_lt_upper_bound. lia.
Qed.

Lemma hexlify_inj (bs1 bs2 : list byte) :
  hexlify bs1 = hexlify bs2 -> bs1 = bs2.
Proof.
  unfold hexlify. revert bs2.
  induction bs1 as [|a r IH]; intros [|b s]; cbn [flat_map app];
    try discriminate; [reflexivity|].
  intros [= Hhi Hlo Hr]. f_equal; [|apply IH, Hr].
  pose proof (byte_bound a). pose proof (byte_bound b).
  apply hex_digit_inj in Hhi;
    [|apply N.Div0.div_lt_upper_bound; lia | apply N.Div0.div_lt_upper_bound; lia].
  apply hex_digit_inj in Hlo; [|apply N.mod_lt; lia | apply N.mod_lt; lia].
  assert (Hab : Byte.to_N a = Byte.to_N b)
    by (rewrite (N.div_mod (Byte.to_N a) 16), (N.div_mod (Byte.to_N b) 16) by lia;
        congruence).
  apply (f_equal Byte.of_N) in Hab. rewrite !Byte.of_to_N in Hab. congruence.
Qed.

Section HasherMore.

Variable H : pystr -> pystr.
Variable urandom : nat -> byte.

(** X5: What [hash_pw] stores: a salt of sixteen lower-case hexadecimal digits
    made of the next eight random bytes, a dollar sign and the digest of
    salt and password; splitting the stored form at the first dollar sign
    gives the salt and the digest back. *)
Theorem hash_pw_stored_form (pw : pystr) (w : world) :
  exists salt,
    hash_pw H urandom pw w =
      (Ok (salt ++ str "$" ++ H (salt ++ pw)),
       mk_world (db w) (drawn w + 8) (ticks w)) /\
    length salt = 16%nat /\
    forallb hex_lower salt = true /\
    split1 (chr "$") (salt ++ str "$" ++ H (salt ++ pw))
      = [salt; H (salt ++ pw)].
Proof.
  exists (hexlify (List.map urandom (seq (drawn w) 8))).
  split; [apply hash_pw_run|].
  split; [rewrite hexlify_length, length_map, length_seq; reflexivity|].
  split; [apply hexlify_lower|].
  apply (split1_first (chr "$")), hexlify_no_dollar.
Qed.

(** X6: Checking any password against what [hash_pw] stored for a password
    never raises: it returns whether the digests of the two passwords,
    each after the stored salt, are equal. So a wrong password is refused
    unless its digest collides. *)
Theorem check_pw_against_hash_pw (pw pw' : pystr) (w : world) :
  exists stored w',
    hash_pw H urandom pw w = (Ok stored, w') /\
    check_pw H pw' stored
      = Ok (PyStr.eqb (H (next_salt urandom (drawn w) ++ pw'))
                      (H (next_salt urandom (drawn w) ++ pw))).
Proof.
  eexists _, _. split; [apply hash_pw_run|].
  apply check_pw_split, hexlify_no_dollar.
Qed.

(** X7: [check_pw] accepts exactly the stored forms that read salt, dollar
    sign, digest of salt and password, the salt being what comes before the
    first dollar sign. *)
Theorem check_pw_accepts_iff (pw stored : pystr) :
  check_pw H pw stored = Ok true <->
  exists salt,
    contains (chr "$") salt = false /\
    stored = salt ++ str "$" ++ H (salt ++ pw).
Proof.
  split.
  - unfold check_pw.
    destruct (split1 (chr "$") stored) as [|salt [|h [|? ?]]] eqn:E;
      cbn [unpack2]; try discriminate.
    intros [= Hd]. apply eqb_eq in Hd.
    destruct (split1_inv _ _ _ _ E) as [-> Hs].
    exists salt. split; [exact Hs|]. rewrite Hd. reflexivity.
  - intros (salt & Hs & ->). rewrite (check_pw_split H pw salt _ Hs).
    rewrite eqb_refl. reflexivity.
Qed.

(** X8: Two runs of [hash_pw] that draw different random bytes store different
    forms, whatever the passwords: the salt alone tells them apart. *)
Theorem hash_pw_salts_differ (pw1 pw2 : pystr) (w1 w2 : world) :
  List.map urandom (seq (drawn w1) 8) <> List.map urandom (seq (drawn w2) 8) ->
  fst (hash_pw H urandom pw1 w1) <> fst (hash_pw H urandom pw2 w2).
Proof.
  intros Hne. rewrite !hash_pw_run. cbn [fst].
  set (s1 := hexlify (List.map urandom (seq (drawn w1) 8))).
  set (s2 := hexlify (List.map urandom (seq (drawn w2) 8))).
  intros E. apply Hne, hexlify_inj. fold s1 s2.
  assert (E' : s1 ++ str "$" ++ H (s1 ++ pw1) = s2 ++ str "$" ++ H (s2 ++ pw2))
    by congruence.
  apply app_inj_1 in E'; [tauto|].
  subst s1 s2. rewrite !hexlify_length, !length_map, !length_seq. reflexivity.
Qed.

End HasherMore.

(** The session cookie of a URL-safe token reads back as the token. *)
Lemma session_cookie_plain (t : pystr) :
  forallb url_safe t = true ->
  cookie_get (cookie_request (str "session=" ++ t)) (str "session")
    = Ok (Some t).
Proof.
  intros Ht. apply (cookie_get_plain (str "session") t); [|reflexivity].
  rewrite forallb_app, (url_safe_plain _ Ht). reflexivity.
Qed.

(** ** Escaping and the page template *)

Lemma replace_flat_map (c : N) (e : pystr) (f : N -> pystr) (s : pystr) :
  Html.replace c e (flat_map f s) = flat_map (fun x => Html.replace c e (f x)) s.
Proof.
  unfold Html.replace. induction s as [|x r IH]; [reflexivity|].
  cbn [flat_map]. rewrite flat_map_app, IH. reflexivity.
Qed.

(** The five replacements in turn amount to one pass. *)
Lemma escape_one_pass (s : pystr) : Html.escape s = flat_map escape_char s.
Proof.
  unfold Html.escape.
  assert (H0 : Html.replace (chr "&") (str "&amp;") s
               = flat_map (fun x => Html.replace (chr "&") (str "&amp;") [x]) s).
  { unfold Html.replace. symmetry. apply flat_map_ext. intros x.
    cbn [flat_map]. apply app_nil_r. }
  rewrite H0, !replace_flat_map. apply flat_map_ext. intros x.
  unfold escape_char, Html.replace at 5. cbn [flat_map]. rewrite app_nil_r.
  destruct (N.eqb_spec x (chr "&")) as [-> | H1]; [reflexivity|].
  unfold Html.replace at 4. cbn [flat_map]. rewrite app_nil_r.
  destruct (N.eqb_spec x (chr "<")) as [-> | H2]; [reflexivity|].
  unfold Html.replace at 3. cbn [flat_map]. rewrite app_nil_r.
  destruct (N.eqb_spec x (chr ">")) as [-> | H3]; [reflexivity|].
  unfold Html.replace at 2. cbn [flat_map]. rewrite app_nil_r.
  destruct (N.eqb_spec x 34) as [-> | H4]; [reflexivity|].
  unfold Html.replace. cbn [flat_map]. rewrite app_nil_r. reflexivity.
Qed.

Lemma escape_char_no_special (x : N) :
  forallb (fun y => negb (Html.special y)) (escape_char x) = true.
Proof.
  unfold escape_char.
  destruct (N.eqb_spec x (chr "&")); [reflexivity|].
  destruct (N.eqb_spec x (chr "<")); [reflexivity|].
  destruct (N.eqb_spec x (chr ">")); [reflexivity|].
  destruct (N.eqb_spec x 34); [reflexivity|].
  destruct (N.eqb_spec x (chr "'")); [reflexivity|].
  cbn [forallb]. rewrite andb_true_r. apply negb_true_iff.
  unfold Html.special. unfold chr in *. cbn [N_of_ascii] in *.
  rewrite !orb_false_iff, !N.eqb_neq. repeat split; assumption.
Qed.

Lemma escape_char_plain (x : N) :
  Html.special x = false -> x <> chr "&" -> escape_char x = [x].
Proof.
  unfold Html.special, escape_char.
  change (chr "&") with 38%N. change (chr "<") with 60%N.
  change (chr ">") with 62%N. change (chr "'") with 39%N.
  rewrite !orb_false_iff. intros (((H1 & H2) & H3) & H4) H5.
  apply N.eqb_neq in H5. rewrite H5, H1, H2, H3, H4. reflexivity.
Qed.

Lemma escape_safe (s : pystr) :
  forallb (fun y => negb (Html.special y)) (Html.escape s) = true.
Proof.
  rewrite escape_one_pass. induction s as [|x r IH]; [reflexivity|].
  cbn [flat_map]. rewrite forallb_app, escape_char_no_special, IH. reflexivity.
Qed.

(** X9: [html.escape] as [page] uses it: the result has no angle bracket and
    no quote of either kind, and a text without those and without an
    ampersand is left as it is. *)
Theorem escape_no_special (s : pystr) :
  forallb (fun y => negb (Html.special y)) (Html.escape s) = true /\
  (forallb (fun y => negb (Html.special y) && negb (N.eqb y (chr "&"))) s = true ->
   Html.escape s = s).
Proof.
  split; [apply escape_safe|]. rewrite escape_one_pass.
  induction s as [|x r IH]; [reflexivity|]. cbn [forallb flat_map].
    intros Hs. apply andb_prop in Hs as [Hx Hr]. apply andb_prop in Hx as [H1 H2].
    rewrite escape_char_plain, (IH Hr); [reflexivity | |].
    + apply negb_true_iff, H1.
    + apply N.eqb_neq, negb_true_iff, H2.
Qed.

Lemma count_no_special (l : pystr) (c : N) :
  forallb (fun y => negb (Html.special y)) l = true ->
  Html.special c = true -> count_occ N.eq_dec l c = 0%nat.
Proof.
  intros Hl Hc. apply count_occ_not_In. intros Hin.
  pose proof (proj1 (forallb_forall _ _) Hl c Hin) as Hn.
  cbv beta in Hn. rewrite Hc in Hn. discriminate.
Qed.

(** X10: What the title and the username can put in a page: no markup. The
    number of angle brackets and of quotes in [page(body, title, user)]
    does not depend on the title, nor on the username of the user. *)
Theorem page_markup_fixed
    (body title title' : pystr) (user user' : option identity) (c : N) :
  Html.special c = true ->
  (user = None <-> user' = None) ->
  count_occ N.eq_dec (Html.page body title user) c
    = count_occ N.eq_dec (Html.page body title' user') c.
Proof.
  intros Hc Hu. unfold Html.page, Html.base_format.
  assert (He : forall s, count_occ N.eq_dec (Html.escape s) c = 0%nat)
    by (intros s; apply count_no_special; [apply escape_safe | exact Hc]).
  destruct user as [u|], user' as [u'|];
    try (exfalso; destruct Hu as [H1 H2];
         first [discriminate (H1 eq_refl) | discriminate (H2 eq_refl)]);
    rewrite !count_occ_app, !He; reflexivity.
Qed.

(** ** The routes, case by case *)

Section RoutesMore.

Variable H : pystr -> pystr.
Variable urandom : nat -> byte.
Variable clock : nat -> Z.

(** [signup] on a new username when the token drawn is already a key: the
    user row is committed, the INSERT of the session raises, and the handler
    of IntegrityError answers. *)
Lemma signup_collision (env : environ) (w : world) (r : session_row) :
  REQUEST_METHOD env = str "POST" ->
  let user := strip (getfirst env (str "username")) in
  let pw := getfirst env (str "password") in
  let salt := hexlify (List.map urandom (seq (drawn w) 8)) in
  user <> [] -> pw <> [] ->
  user_by_username user (db w) = None ->
  sessions (db w) !! next_token urandom (drawn w + 8) = Some r ->
  signup H urandom clock env w =
    (Ok username_taken,
     mk_world
       (mk_db (users (db w)
                 ++ [mk_user (next_rowid (users (db w))) user
                             (salt ++ str "$" ++ H (salt ++ pw))
                             (clock (ticks w))])
              (sessions (db w)) (posts (db w)))
       (drawn w + 8 + 32) (S (S (ticks w)))).
Proof.
  intros Hm user pw salt Hu Hp Hnew Hused. unfold signup.
  rewrite Hm, eqb_refl. fold user pw.
  rewrite (truthy_nonempty _ Hu), (truthy_nonempty _ Hp). cbn [negb orb].
  unfold try_except. unfold bind at 1. rewrite hash_pw_run. fold salt.
  unfold bind at 1. unfold time_now at 1. cbn [db drawn ticks].
  unfold bind at 1. unfold execute at 1. cbn [db drawn ticks].
  destruct (insert_user user (salt ++ str "$" ++ H (salt ++ pw))
              (clock (ticks w)) (db w)) as [d1 | e] eqn:Hins;
    [|unfold insert_user in Hins; rewrite Hnew in Hins; discriminate].
  unfold bind at 1. unfold query. cbn [db].
  rewrite (user_by_username_inserted _ _ _ _ _ Hins).
  unfold bind at 1. unfold lift. cbn [id].
  assert (Hd1 : d1 = mk_db (users (db w)
                              ++ [mk_user (next_rowid (users (db w))) user
                                          (salt ++ str "$" ++ H (salt ++ pw))
                                          (clock (ticks w))])
                           (sessions (db w)) (posts (db w))).
  { unfold insert_user in Hins. rewrite Hnew in Hins.
    injection Hins as <-. reflexivity. }
  subst d1. unfold bind.
  erewrite session_create_collision by exact Hused. reflexivity.
Qed.

Lemma login_raises (env : environ) (w : world) (u : user_row) (e : exn) :
  REQUEST_METHOD env = str "POST" ->
  user_by_username (getfirst env (str "username")) (db w) = Some u ->
  check_pw H (getfirst env (str "password")) (password u) = Raise e ->
  login H urandom clock env w = (Raise e, w).
Proof.
  intros Hm Hrow Hpw. unfold login. rewrite Hm, eqb_refl.
  unfold bind at 1. unfold query. rewrite Hrow.
  unfold bind at 1. unfold lift. rewrite Hpw. reflexivity.
Qed.

(** [login] with the right password, by whether the token drawn is new. *)
Lemma login_good (env : environ) (w : world) (u : user_row) :
  REQUEST_METHOD env = str "POST" ->
  user_by_username (getfirst env (str "username")) (db w) = Some u ->
  check_pw H (getfirst env (str "password")) (password u) = Ok true ->
  login H urandom clock env w =
    match sessions (db w) !! next_token urandom (drawn w) with
    | None =>
        (Ok (redirect (str "/") (session_cookie (next_token urandom (drawn w)))),
         mk_world (mk_db (users (db w))
                         (<[next_token urandom (drawn w)
                            := mk_session (id u) (clock (ticks w) + 604800)]>
                            (sessions (db w)))
                         (posts (db w)))
                  (drawn w + 32) (S (ticks w)))
    | Some _ =>
        (Raise IntegrityError, mk_world (db w) (drawn w + 32) (S (ticks w)))
    end.
Proof.
  intros Hm Hrow Hpw.
  rewrite (login_checked H urandom clock env w u true Hm Hrow Hpw).
  unfold bind.
  destruct (sessions (db w) !! next_token urandom (drawn w)) as [r|] eqn:E.
  - rewrite (session_create_collision urandom clock (id u) w r E). reflexivity.
  - rewrite (session_create_run urandom clock (id u) w E). reflexivity.
Qed.

End RoutesMore.

(** ** What each change to the store keeps *)

Lemma next_rowid_above (rows : list user_row) (u : user_row) :
  In u rows -> id u < next_rowid rows.
Proof.
  assert (Hmax : forall l a, a <= fold_left Z.max l a /\
                            forall x, In x l -> x <= fold_left Z.max l a).
  { induction l as [|y l IH]; intros a; cbn [fold_left].
    - split; [lia | intros x []].
    - destruct (IH (Z.max a y)) as [H1 H2]. split; [lia|].
      intros x [<- | Hx]; [lia | apply H2, Hx]. }
  destruct rows as [|r rs]; [intros []|]. cbn [next_rowid].
  destruct (Hmax (List.map id rs) (id r)) as [H1 H2].
  intros [<- | Hin]; [lia|].
  specialize (H2 (id u) (in_map id _ _ Hin)). lia.
Qed.

Lemma user_by_username_in (name : pystr) (d : database) (u : user_row) :
  user_by_username name d = Some u -> In u (users d) /\ username u = name.
Proof.
  unfold user_by_username. intros Hf. apply find_some in Hf as [Hin Hu].
  split; [exact Hin | apply eqb_eq, Hu].
Qed.

Lemma user_by_username_none (name : pystr) (d : database) :
  user_by_username name d = None -> ~ In name (List.map username (users d)).
Proof.
  unfold user_by_username. intros Hf Hin.
  apply in_map_iff in Hin as (u & <- & Hu).
  pose proof (find_none _ _ Hf u Hu) as Hn. cbn in Hn.
  rewrite eqb_refl in Hn. discriminate.
Qed.

Lemma user_by_id_some (uid : Z) (d : database) :
  In uid (List.map id (users d)) -> exists u, user_by_id uid d = Some u.
Proof.
  unfold user_by_id. intros Hin. apply in_map_iff in Hin as (u & <- & Hu).
  destruct (List.find _ (users d)) as [v|] eqn:E; [eauto|].
  pose proof (find_none _ _ E u Hu) as Hn. cbn in Hn.
  rewrite Z.eqb_refl in Hn. discriminate.
Qed.

Lemma user_by_id_in (uid : Z) (d : database) (u : user_row) :
  user_by_id uid d = Some u -> In uid (List.map id (users d)).
Proof.
  intros Hf. pose proof (user_by_id_id _ _ _ Hf) as <-.
  unfold user_by_id in Hf. apply find_some in Hf as [Hin _].
  apply in_map, Hin.
Qed.

Section StepKeeps.

Variables d d' : database.
Hypothesis Hstep : db_step d d'.

Lemma step_users :
  exists new, users d' = users d ++ new /\ posts d' = posts d.
Proof.
  destruct Hstep; cbn [users posts delete_session].
  - eexists. split; reflexivity.
  - exists []. rewrite app_nil_r. split; reflexivity.
  - exists []. rewrite app_nil_r. split; reflexivity.
Qed.

Lemma step_usernames_unique : usernames_unique d -> usernames_unique d'.
Proof.
  unfold usernames_unique. destruct Hstep; cbn [users delete_session]; try tauto.
  intros Hd. rewrite map_app. cbn [List.map username].
  apply NoDup_app. split; [exact Hd|]. split; [|apply NoDup_singleton].
  intros x Hx Hin. apply list_elem_of_In in Hx.
  apply list_elem_of_In in Hin. destruct Hin as [<- | []].
  exact (user_by_username_none _ _ H1 Hx).
Qed.

Lemma step_ids_unique : ids_unique d -> ids_unique d'.
Proof.
  unfold ids_unique. destruct Hstep; cbn [users delete_session]; try tauto.
  intros Hd. rewrite map_app. cbn [List.map id].
  apply NoDup_app. split; [exact Hd|]. split; [|apply NoDup_singleton].
  intros x Hx Hin. apply list_elem_of_In in Hx.
  apply list_elem_of_In in Hin. destruct Hin as [<- | []].
  apply in_map_iff in Hx as (u & Hid & Hu).
  pose proof (next_rowid_above _ _ Hu). lia.
Qed.

Lemma step_passwords_split : passwords_split d -> passwords_split d'.
Proof.
  unfold passwords_split. destruct Hstep; cbn [users delete_session]; try tauto.
  intros Hd. apply Forall_app. split; [exact Hd|].
  constructor; [assumption | constructor].
Qed.

Lemma step_usernames_trimmed : usernames_trimmed d -> usernames_trimmed d'.
Proof.
  unfold usernames_trimmed. destruct Hstep; cbn [users delete_session]; try tauto.
  intros Hd. apply Forall_app. split; [exact Hd|].
  constructor; [split; assumption | constructor].
Qed.

Lemma step_tokens_url_safe : tokens_url_safe d -> tokens_url_safe d'.
Proof.
  unfold tokens_url_safe. destruct Hstep; cbn [sessions delete_session];
    intros Hd t r; [apply Hd | |].
  - destruct (decide (tok = t)) as [<- | Hne].
    + intros _. split; assumption.
    + rewrite lookup_insert_ne by exact Hne. apply Hd.
  - destruct (decide (tok = t)) as [<- | Hne].
    + rewrite lookup_delete_eq. discriminate.
    + rewrite lookup_delete_ne by exact Hne. apply Hd.
Qed.

Lemma step_sessions_owned : sessions_owned d -> sessions_owned d'.
Proof.
  unfold sessions_owned. destruct Hstep; cbn [sessions delete_session];
    intros Hd t r Ht.
  - destruct (Hd t r Ht) as [u Hu]. apply user_by_id_some.
    cbn [users]. rewrite map_app. apply in_or_app. left.
    exact (user_by_id_in _ _ _ Hu).
  - destruct (decide (tok = t)) as [<- | Hne].
    + rewrite lookup_insert_eq in Ht. injection Ht as <-. cbn [user_id].
      apply user_by_id_some. cbn [users]. apply in_map. assumption.
    + rewrite lookup_insert_ne in Ht by exact Hne.
      destruct (Hd t r Ht) as [v Hv]. apply user_by_id_some. cbn [users].
      exact (user_by_id_in _ _ _ Hv).
  - destruct (decide (tok = t)) as [<- | Hne].
    + rewrite lookup_delete_eq in Ht. discriminate.
    + rewrite lookup_delete_ne in Ht by exact Hne.
      destruct (Hd t r Ht) as [v Hv]. apply user_by_id_some. cbn [users].
      exact (user_by_id_in _ _ _ Hv).
Qed.

End StepKeeps.

(** ** Stripping twice *)

Lemma drop_while_idem (p : N -> bool) (s : pystr) :
  drop_while p (drop_while p s) = drop_while p s.
Proof.
  pose proof (drop_while_done p s) as Hd.
  destruct (drop_while p s) as [|x r]; [reflexivity|].
  apply drop_while_head, Hd.
Qed.

Lemma rstrip_by_prefix (p : N -> bool) (s : pystr) :
  exists b, s = rstrip_by p s ++ b.
Proof.
  unfold rstrip_by. destruct (drop_while_suffix p (rev s)) as (a & Ha & _).
  exists (rev a). rewrite <- rev_app_distr, <- Ha, rev_involutive. reflexivity.
Qed.

Lemma rstrip_by_idem (p : N -> bool) (s : pystr) :
  rstrip_by p (rstrip_by p s) = rstrip_by p s.
Proof.
  unfold rstrip_by. rewrite rev_involutive, drop_while_idem. reflexivity.
Qed.

Lemma strip_idem (s : pystr) : strip (strip s) = strip s.
Proof.
  unfold strip. set (l := drop_while is_space s).
  assert (Hl : drop_while is_space (rstrip_by is_space l) = rstrip_by is_space l).
  { destruct (rstrip_by_prefix is_space l) as [b Hb].
    pose proof (drop_while_done is_space s) as Hd. fold l in Hd.
    destruct (rstrip_by is_space l) as [|x t]; [reflexivity|].
    rewrite Hb in Hd. cbn [app] in Hd. apply drop_while_head, Hd. }
  rewrite Hl. apply rstrip_by_idem.
Qed.

(** ** The routes as changes to the store *)

Lemma db_steps_trans (d1 d2 d3 : database) :
  db_steps d1 d2 -> db_steps d2 d3 -> db_steps d1 d3.
Proof.
  intros H12 H23. induction H23 as [|d d' _ IH Hs]; [exact H12|].
  exact (steps_more _ _ _ IH Hs).
Qed.

Lemma db_steps_one (d d' : database) : db_step d d' -> db_steps d d'.
Proof. intros Hs. exact (steps_more _ _ _ (steps_refl d) Hs). Qed.

Section RouteSteps.

Variable H : pystr -> pystr.
Variable urandom : nat -> byte.
Variable clock : nat -> Z.

Lemma session_step (d : database) (n : nat) (u : user_row) (exp : Z) :
  sessions d !! next_token urandom n = None -> In u (users d) ->
  db_step d (mk_db (users d)
                   (<[next_token urandom n := mk_session (id u) exp]> (sessions d))
                   (posts d)).
Proof.
  intros Hfresh Hu. destruct (next_token_shape urandom n) as [Hl Hs].
  apply step_add_session; assumption.
Qed.

Lemma signup_steps (env : environ) (w : world) :
  db_steps (db w) (db (snd (signup H urandom clock env w))).
Proof.
  destruct (decide (REQUEST_METHOD env = str "POST")) as [Hm | Hm];
    [|rewrite (signup_not_post H urandom clock env w Hm); apply steps_refl].
  set (user := strip (getfirst env (str "username"))).
  set (pw := getfirst env (str "password")).
  destruct (decide (user = [])) as [Hu | Hu];
    [rewrite (signup_missing_field H urandom clock env w Hm (or_introl Hu));
     apply steps_refl|].
  destruct (decide (pw = [])) as [Hp | Hp];
    [rewrite (signup_missing_field H urandom clock env w Hm (or_intror Hp));
     apply steps_refl|].
  destruct (user_by_username user (db w)) as [u|] eqn:Hrow;
    [rewrite (signup_taken H urandom clock env w u Hm Hu Hp Hrow);
     apply steps_refl|].
  set (salt := hexlify (List.map urandom (seq (drawn w) 8))).
  set (row := mk_user (next_rowid (users (db w))) user
                      (salt ++ str "$" ++ H (salt ++ pw)) (clock (ticks w))).
  assert (Hadd : db_step (db w)
                   (mk_db (users (db w) ++ [row]) (sessions (db w)) (posts (db w)))).
  { apply step_add_user; [exact Hu | apply strip_idem | exact Hrow |].
    rewrite contains_app. unfold contains at 2. cbn [str list_ascii_of_string
      List.map app existsb]. rewrite N.eqb_refl, orb_true_r. reflexivity. }
  destruct (sessions (db w) !! next_token urandom (drawn w + 8)) as [r|] eqn:Htok.
  - rewrite (signup_collision H urandom clock env w r Hm Hu Hp Hrow Htok).
    cbn [snd db]. apply db_steps_one, Hadd.
  - rewrite (signup_registers H urandom clock env w Hm Hu Hp Hrow Htok).
    cbn [snd db]. eapply steps_more; [apply db_steps_one, Hadd|].
    apply (session_step
             (mk_db (users (db w) ++ [row]) (sessions (db w)) (posts (db w)))
             (drawn w + 8) row); [exact Htok|].
    cbn [users]. apply in_or_app. right. left. reflexivity.
Qed.

Lemma login_steps (env : environ) (w : world) :
  db_steps (db w) (db (snd (login H urandom clock env w))).
Proof.
  destruct (decide (REQUEST_METHOD env = str "POST")) as [Hm | Hm];
    [|rewrite (login_not_post H urandom clock env w Hm); apply steps_refl].
  destruct (user_by_username (getfirst env (str "username")) (db w))
    as [u|] eqn:Hrow;
    [|rewrite (login_unknown_user H urandom clock env w Hm Hrow);
      apply steps_refl].
  destruct (check_pw H (getfirst env (str "password")) (password u))
    as [[|] | e] eqn:Hpw.
  - rewrite (login_good H urandom clock env w u Hm Hrow Hpw).
    destruct (sessions (db w) !! next_token urandom (drawn w)) as [r|] eqn:Htok;
      cbn [snd db]; [apply steps_refl|].
    apply db_steps_one, session_step; [exact Htok|].
    apply (user_by_username_in _ _ _ Hrow).
  - rewrite (login_checked H urandom clock env w u false Hm Hrow Hpw).
    apply steps_refl.
  - rewrite (login_raises H urandom clock env w u e Hm Hrow Hpw).
    apply steps_refl.
Qed.

Lemma logout_steps (env : environ) (w : world) :
  db_steps (db w) (db (snd (logout env w))).
Proof.
  destruct (cookie_get_returns env (str "session")) as [tok Hc].
  rewrite (logout_run env w tok Hc).
  destruct tok as [[|x t]|]; cbn [snd db]; try apply steps_refl.
  apply db_steps_one, step_del_session.
Qed.

Lemma session_get_steps (tok : option pystr) (w : world) :
  db_steps (db w) (db (snd (session_get clock tok w))).
Proof.
  destruct (session_get_cases clock tok w)
    as [[E _] | (t & r & -> & Hne & Ht & [[Hexp E] | [Hle E]])];
    rewrite E; cbn [snd db]; try apply steps_refl.
  apply db_steps_one, step_del_session.
Qed.

Lemma serve_steps (r : request) (w : world) :
  db_steps (db w) (db (serve H urandom clock r w)).
Proof.
  destruct r; cbn [serve];
    [apply signup_steps | apply login_steps | apply logout_steps
     | apply session_get_steps].
Qed.

Lemma reachable_steps (w : world) :
  reachable H urandom clock w -> db_steps empty_db (db w).
Proof.
  induction 1 as [n k | r w _ IH]; [apply steps_refl|].
  exact (db_steps_trans _ _ _ IH (serve_steps r w)).
Qed.

End RouteSteps.

Lemma db_steps_keep (P : database -> Prop) :
  (forall d d', db_step d d' -> P d -> P d') ->
  forall d d', db_steps d d' -> P d -> P d'.
Proof.
  intros Hk d d' Hs Hd. induction Hs as [|d1 d2 _ IH Hs]; [exact Hd|].
  exact (Hk _ _ Hs IH).
Qed.

(** ** Signing up, logging in, logging out *)

Lemma user_by_id_appended
    (d : database) (row : user_row) (ss : gmap pystr session_row)
    (ps : list post_row) :
  id row = next_rowid (users d) ->
  user_by_id (next_rowid (users d)) (mk_db (users d ++ [row]) ss ps) = Some row.
Proof.
  intros Hid. unfold user_by_id. cbn [users].
  assert (Hall : forall u, In u (users d) -> (id u =? next_rowid (users d)) = false).
  { intros u Hu. apply Z.eqb_neq. pose proof (next_rowid_above _ _ Hu). lia. }
  generalize dependent (next_rowid (users d)). intros n Hid Hall.
  induction (users d) as [|u us IH]; cbn [app List.find].
  - rewrite Hid, Z.eqb_refl. reflexivity.
  - rewrite (Hall u (or_introl eq_refl)). apply IH.
    intros v Hv. apply Hall. right. exact Hv.
Qed.

Lemma user_by_username_appended
    (d : database) (row : user_row) (ss : gmap pystr session_row)
    (ps : list post_row) :
  user_by_username (username row) d = None ->
  user_by_username (username row) (mk_db (users d ++ [row]) ss ps) = Some row.
Proof.
  unfold user_by_username. cbn [users].
  induction (users d) as [|u us IH]; cbn [app List.find].
  - intros _. rewrite eqb_refl. reflexivity.
  - destruct (PyStr.eqb (username u) (username row)); [discriminate | exact IH].
Qed.

Section Flows.

Variable H : pystr -> pystr.
Variable urandom : nat -> byte.
Variable clock : nat -> Z.

(** X11: A POST to [signup] with a new, non-empty (once trimmed) username and a
    non-empty password, when the token drawn is not yet in use, appends
    exactly one user row: its id is larger than every id in the table, its
    username is the trimmed one, its creation time the clock reading, and
    its password column verifies the password. It also stores a session
    for that id and redirects with the session cookie. *)
Theorem signup_creates_account (env : environ) (w : world) :
  REQUEST_METHOD env = str "POST" ->
  strip (getfirst env (str "username")) <> [] ->
  getfirst env (str "password") <> [] ->
  user_by_username (strip (getfirst env (str "username"))) (db w) = None ->
  sessions (db w) !! next_token urandom (drawn w + 8) = None ->
  let user := strip (getfirst env (str "username")) in
  let pw := getfirst env (str "password") in
  let tok := next_token urandom (drawn w + 8) in
  exists row w',
    signup H urandom clock env w
      = (Ok (redirect (str "/") (session_cookie tok)), w') /\
    users (db w') = users (db w) ++ [row] /\
    username row = user /\ created_at row = clock (ticks w) /\
    (forall u, In u (users (db w)) -> id u < id row) /\
    check_pw H pw (password row) = Ok true /\
    user_by_username user (db w') = Some row /\
    sessions (db w') !! tok
      = Some (mk_session (id row) (clock (S (ticks w)) + 604800)) /\
    (forall t, t <> tok -> sessions (db w') !! t = sessions (db w) !! t) /\
    posts (db w') = posts (db w).
Proof.
  intros Hm Hu Hp Hnew Hfresh user pw tok.
  set (salt := hexlify (List.map urandom (seq (drawn w) 8))).
  exists (mk_user (next_rowid (users (db w))) user
                  (salt ++ str "$" ++ H (salt ++ pw)) (clock (ticks w))).
  eexists. split; [apply (signup_registers H urandom clock env w Hm Hu Hp Hnew Hfresh)|].
  cbn [db users sessions posts username created_at id password].
  split; [reflexivity|]. split; [reflexivity|]. split; [reflexivity|].
  split; [intros u Hin; apply next_rowid_above, Hin|].
  split; [rewrite check_pw_split by apply hexlify_no_dollar;
          rewrite eqb_refl; reflexivity|].
  split; [apply (user_by_username_appended (db w) (mk_user _ user _ _)), Hnew|].
  split; [apply lookup_insert_eq|].
  split; [intros t Hne; apply lookup_insert_ne; intros E; apply Hne; symmetry; exact E | reflexivity].
Qed.

(** X12: [signup] never raises: whatever the request and the state, it returns
    a response. The IntegrityError of either INSERT is caught, and the row
    whose id it reads back is the one it has just inserted. *)
Theorem signup_always_responds (env : environ) (w : world) :
  exists resp w', signup H urandom clock env w = (Ok resp, w').
Proof.
  destruct (decide (REQUEST_METHOD env = str "POST")) as [Hm | Hm];
    [|eexists _, _; apply (signup_not_post H urandom clock env w Hm)].
  destruct (decide (strip (getfirst env (str "username")) = [])) as [Hu | Hu];
    [eexists _, _;
     apply (signup_missing_field H urandom clock env w Hm (or_introl Hu))|].
  destruct (decide (getfirst env (str "password") = [])) as [Hp | Hp];
    [eexists _, _;
     apply (signup_missing_field H urandom clock env w Hm (or_intror Hp))|].
  destruct (user_by_username (strip (getfirst env (str "username"))) (db w))
    as [u|] eqn:Hrow;
    [eexists _, _; apply (signup_taken H urandom clock env w u Hm Hu Hp Hrow)|].
  destruct (sessions (db w) !! next_token urandom (drawn w + 8)) as [r|] eqn:Htok.
  - eexists _, _.
    apply (signup_collision H urandom clock env w r Hm Hu Hp Hrow Htok).
  - eexists _, _.
    apply (signup_registers H urandom clock env w Hm Hu Hp Hrow Htok).
Qed.

(** X13: When the session token [signup] draws for a new account is already in
    use, the answer is the Username taken page although the username was
    free: the user row has been committed before the session INSERT failed,
    so the account exists from then on, without a session. *)
Theorem signup_token_collision (env : environ) (w : world) (r : session_row) :
  REQUEST_METHOD env = str "POST" ->
  strip (getfirst env (str "username")) <> [] ->
  getfirst env (str "password") <> [] ->
  user_by_username (strip (getfirst env (str "username"))) (db w) = None ->
  sessions (db w) !! next_token urandom (drawn w + 8) = Some r ->
  let user := strip (getfirst env (str "username")) in
  exists row w',
    signup H urandom clock env w = (Ok username_taken, w') /\
    users (db w') = users (db w) ++ [row] /\
    user_by_username user (db w') = Some row /\
    check_pw H (getfirst env (str "password")) (password row) = Ok true /\
    sessions (db w') = sessions (db w).
Proof.
  intros Hm Hu Hp Hnew Hused user.
  set (salt := hexlify (List.map urandom (seq (drawn w) 8))).
  exists (mk_user (next_rowid (users (db w))) user
                  (salt ++ str "$" ++ H (salt ++ getfirst env (str "password")))
                  (clock (ticks w))).
  eexists. split; [apply (signup_collision H urandom clock env w r Hm Hu Hp Hnew Hused)|].
  cbn [db users sessions password].
  split; [reflexivity|].
  split; [apply (user_by_username_appended (db w) (mk_user _ user _ _)), Hnew|].
  split; [|reflexivity].
  rewrite check_pw_split by apply hexlify_no_dollar.
  rewrite eqb_refl. reflexivity.
Qed.

(** X14: A POST to [login] with the username of a row and a password that
    [check_pw] accepts, when the token drawn is not yet in use, stores a
    new session for that row's id, expiring 604800 seconds after the clock
    reading, and redirects with its cookie; the users, the posts and every
    other session, earlier ones of the same user included, stay as they
    are. *)
Theorem login_creates_session (env : environ) (w : world) (u : user_row) :
  REQUEST_METHOD env = str "POST" ->
  user_by_username (getfirst env (str "username")) (db w) = Some u ->
  check_pw H (getfirst env (str "password")) (password u) = Ok true ->
  sessions (db w) !! next_token urandom (drawn w) = None ->
  let tok := next_token urandom (drawn w) in
  exists w',
    login H urandom clock env w
      = (Ok (redirect (str "/") (session_cookie tok)), w') /\
    sessions (db w') !! tok
      = Some (mk_session (id u) (clock (ticks w) + 604800)) /\
    (forall t, t <> tok -> sessions (db w') !! t = sessions (db w) !! t) /\
    users (db w') = users (db w) /\ posts (db w') = posts (db w).
Proof.
  intros Hm Hrow Hpw Hfresh tok.
  rewrite (login_good H urandom clock env w u Hm Hrow Hpw), Hfresh.
  eexists. split; [reflexivity|]. cbn [db sessions users posts].
  split; [apply lookup_insert_eq|].
  split; [intros t Hne; apply lookup_insert_ne; intros E; apply Hne; symmetry; exact E|].
  split; reflexivity.
Qed.

(** X15: After [logout], [session_get] with the token of the same cookie
    returns [None], whatever the clock: the session is revoked at once. *)
Theorem logout_then_session_get (env : environ) (w : world) (tok : option pystr) :
  cookie_get env (str "session") = Ok tok ->
  fst (session_get clock tok (snd (logout env w))) = Ok None.
Proof.
  intros Hc. rewrite (logout_run env w tok Hc).
  destruct tok as [[|x t]|]; cbn [snd]; try reflexivity.
  rewrite session_get_unknown; [reflexivity|].
  cbn [db delete_session sessions]. apply lookup_delete_eq.
Qed.

(** X16: From sign-up to identity: after a successful [signup], the token of
    the cookie it sets, sent back in a Cookie header, is read by
    [cookie_get], and [session_get] on it, while the session has not
    expired, returns the new user's id and trimmed username. *)
Theorem signup_then_session_get (env : environ) (w : world) :
  REQUEST_METHOD env = str "POST" ->
  strip (getfirst env (str "username")) <> [] ->
  getfirst env (str "password") <> [] ->
  user_by_username (strip (getfirst env (str "username"))) (db w) = None ->
  sessions (db w) !! next_token urandom (drawn w + 8) = None ->
  clock (S (S (ticks w))) <= clock (S (ticks w)) + 604800 ->
  let user := strip (getfirst env (str "username")) in
  let tok := next_token urandom (drawn w + 8) in
  fst (signup H urandom clock env w)
    = Ok (redirect (str "/") (session_cookie tok)) /\
  cookie_get (cookie_request (str "session=" ++ tok)) (str "session")
    = Ok (Some tok) /\
  fst (session_get clock (Some tok) (snd (signup H urandom clock env w)))
    = Ok (Some (mk_identity (next_rowid (users (db w))) user)).
Proof.
  intros Hm Hu Hp Hnew Hfresh Hsoon user tok.
  rewrite (signup_registers H urandom clock env w Hm Hu Hp Hnew Hfresh).
  cbn [fst snd]. split; [reflexivity|].
  destruct (next_token_shape urandom (drawn w + 8)) as [Hlen Hsafe].
  split; [apply session_cookie_plain, Hsafe|].
  fold user tok.
  set (row := mk_user (next_rowid (users (db w))) user _ (clock (ticks w))).
  set (ses := mk_session (next_rowid (users (db w))) (clock (S (ticks w)) + 604800)).
  rewrite (session_get_live clock tok ses).
  - cbn [fst db user_id ses].
    rewrite (user_by_id_appended (db w) row _ _ eq_refl). reflexivity.
  - apply truthy_nonempty, next_token_nonempty.
  - cbn [db sessions]. apply lookup_insert_eq.
  - cbn [ticks expires ses]. exact Hsoon.
Qed.

(** X17: Sign-up then log-in: after a successful [signup], a POST to [login]
    with the trimmed username and the same password passes the password
    check and, when its token is not in use either, stores a second session
    for the new user, the first one staying valid. *)
Theorem signup_then_login (env env' : environ) (w : world) :
  REQUEST_METHOD env = str "POST" ->
  strip (getfirst env (str "username")) <> [] ->
  getfirst env (str "password") <> [] ->
  user_by_username (strip (getfirst env (str "username"))) (db w) = None ->
  sessions (db w) !! next_token urandom (drawn w + 8) = None ->
  REQUEST_METHOD env' = str "POST" ->
  getfirst env' (str "username") = strip (getfirst env (str "username")) ->
  getfirst env' (str "password") = getfirst env (str "password") ->
  sessions (db w) !! next_token urandom (drawn w + 8 + 32) = None ->
  next_token urandom (drawn w + 8 + 32) <> next_token urandom (drawn w + 8) ->
  let uid := next_rowid (users (db w)) in
  let tok := next_token urandom (drawn w + 8) in
  let tok' := next_token urandom (drawn w + 8 + 32) in
  let w1 := snd (signup H urandom clock env w) in
  exists w2,
    login H urandom clock env' w1
      = (Ok (redirect (str "/") (session_cookie tok')), w2) /\
    sessions (db w2) !! tok'
      = Some (mk_session uid (clock (S (S (ticks w))) + 604800)) /\
    sessions (db w2) !! tok
      = Some (mk_session uid (clock (S (ticks w)) + 604800)).
Proof.
  intros Hm Hu Hp Hnew Hfresh Hm' Hu' Hp' Hfresh' Hne uid tok tok' w1.
  subst w1.
  rewrite (signup_registers H urandom clock env w Hm Hu Hp Hnew Hfresh).
  cbn [snd].
  set (salt := hexlify (List.map urandom (seq (drawn w) 8))).
  set (row := mk_user (next_rowid (users (db w)))
                      (strip (getfirst env (str "username")))
                      (salt ++ str "$" ++ H (salt ++ getfirst env (str "password")))
                      (clock (ticks w))).
  set (w1 := mk_world _ _ _).
  assert (Hrow : user_by_username (getfirst env' (str "username")) (db w1)
                 = Some row).
  { rewrite Hu'. apply (user_by_username_appended (db w) row), Hnew. }
  assert (Hpw : check_pw H (getfirst env' (str "password")) (password row)
                = Ok true).
  { rewrite Hp'. cbn [password row].
    rewrite check_pw_split by apply hexlify_no_dollar.
    rewrite eqb_refl. reflexivity. }
  assert (Hfree : sessions (db w1) !! next_token urandom (drawn w1) = None).
  { cbn [w1 db sessions drawn]. rewrite lookup_insert_ne; [exact Hfresh'|].
    intros E. apply Hne. symmetry. exact E. }
  rewrite (login_good H urandom clock env' w1 row Hm' Hrow Hpw), Hfree.
  eexists. split; [reflexivity|]. cbn [db sessions w1 drawn ticks id row].
  split; [apply lookup_insert_eq|].
  rewrite lookup_insert_ne by exact Hne. apply lookup_insert_eq.
Qed.

End Flows.

(** ** What holds of every reachable store *)

Lemma db_steps_users (d d' : database) :
  db_steps d d' ->
  exists new, users d' = users d ++ new /\ posts d' = posts d.
Proof.
  induction 1 as [|d1 d2 _ (new & Hu & Hp) Hs].
  - exists []. rewrite app_nil_r. split; reflexivity.
  - destruct (step_users _ _ Hs) as (new' & Hu' & Hp').
    exists (new ++ new'). rewrite Hu', Hu, Hp', Hp, app_assoc.
    split; reflexivity.
Qed.

Lemma find_app_some {A} (f : A -> bool) (l l' : list A) (x : A) :
  List.find f l = Some x -> List.find f (l ++ l') = Some x.
Proof.
  induction l as [|y l IH]; cbn [List.find app]; [discriminate|].
  destruct (f y); [tauto | exact IH].
Qed.

Section Reachable.

Variable H : pystr -> pystr.
Variable urandom : nat -> byte.
Variable clock : nat -> Z.

(** X18: The users table only grows at its end: whatever the request, the rows
    that were there are there afterwards, unchanged and in place, so a
    username or an id that had a row keeps that very row; and the posts
    table is untouched. *)
Theorem users_append_only (r : request) (w : world) :
  exists new,
    users (db (serve H urandom clock r w)) = users (db w) ++ new /\
    posts (db (serve H urandom clock r w)) = posts (db w) /\
    (forall name u, user_by_username name (db w) = Some u ->
       user_by_username name (db (serve H urandom clock r w)) = Some u) /\
    (forall uid u, user_by_id uid (db w) = Some u ->
       user_by_id uid (db (serve H urandom clock r w)) = Some u).
Proof.
  destruct (db_steps_users _ _ (serve_steps H urandom clock r w))
    as (new & Hu & Hp).
  exists new. split; [exact Hu|]. split; [exact Hp|].
  unfold user_by_username, user_by_id. rewrite Hu.
  split; intros k u Hf; apply find_app_some, Hf.
Qed.

(** X19: In every store the routes reach from the empty one, no two user rows
    share a username and no two share an id. *)
Theorem reachable_keys_unique (w : world) :
  reachable H urandom clock w ->
  NoDup (List.map username (users (db w))) /\
  NoDup (List.map id (users (db w))).
Proof.
  intros Hr. pose proof (reachable_steps H urandom clock w Hr) as Hs. split.
  - apply (db_steps_keep usernames_unique step_usernames_unique _ _ Hs).
    apply NoDup_nil_2.
  - apply (db_steps_keep ids_unique step_ids_unique _ _ Hs).
    apply NoDup_nil_2.
Qed.

Lemma reachable_passwords_split (w : world) :
  reachable H urandom clock w -> passwords_split (db w).
Proof.
  intros Hr. pose proof (reachable_steps H urandom clock w Hr) as Hs.
  apply (db_steps_keep passwords_split step_passwords_split _ _ Hs).
  constructor.
Qed.

(** X20: In every reachable store, [login] does not crash on the password
    column: it returns a response, unless the password is right and the
    session token drawn is already in use, the one case in which it raises
    (IntegrityError). The ValueError of [check_pw] never occurs. *)
Theorem reachable_login_responds (w : world) (env : environ) :
  reachable H urandom clock w ->
  (exists resp w', login H urandom clock env w = (Ok resp, w')) \/
  (exists r, sessions (db w) !! next_token urandom (drawn w) = Some r /\
     login H urandom clock env w
       = (Raise IntegrityError, mk_world (db w) (drawn w + 32) (S (ticks w)))).
Proof.
  intros Hr.
  destruct (decide (REQUEST_METHOD env = str "POST")) as [Hm | Hm];
    [|left; eexists _, _; apply (login_not_post H urandom clock env w Hm)].
  destruct (user_by_username (getfirst env (str "username")) (db w))
    as [u|] eqn:Hrow;
    [|left; eexists _, _;
      apply (login_unknown_user H urandom clock env w Hm Hrow)].
  assert (Hsplit : contains (chr "$") (password u) = true).
  { pose proof (reachable_passwords_split w Hr) as Hall.
    apply (proj1 (List.Forall_forall _ _) Hall u).
    apply (user_by_username_in _ _ _ Hrow). }
  destruct (check_pw_returns H (getfirst env (str "password")) _ Hsplit)
    as [[|] Hpw].
  - rewrite (login_good H urandom clock env w u Hm Hrow Hpw).
    destruct (sessions (db w) !! next_token urandom (drawn w)) as [r|] eqn:Htok.
    + right. exists r. split; reflexivity.
    + left. eexists _, _. reflexivity.
  - left. eexists _, _.
    apply (login_checked H urandom clock env w u false Hm Hrow Hpw).
Qed.

(** X21: [signup] trims the username and [login] does not: in every reachable
    store the stored usernames are non-empty and have no blank at either
    end, so a POST to [login] whose username has one is answered
    Invalid credentials, whatever the password, and changes nothing. *)
Theorem reachable_login_untrimmed (w : world) (env : environ) :
  reachable H urandom clock w ->
  REQUEST_METHOD env = str "POST" ->
  strip (getfirst env (str "username")) <> getfirst env (str "username") ->
  Forall (fun u => username u <> [] /\ strip (username u) = username u)
         (users (db w)) /\
  login H urandom clock env w = (Ok invalid_credentials, w).
Proof.
  intros Hr Hm Hpad.
  assert (Hall : usernames_trimmed (db w)).
  { pose proof (reachable_steps H urandom clock w Hr) as Hs.
    apply (db_steps_keep usernames_trimmed step_usernames_trimmed _ _ Hs).
    constructor. }
  split; [exact Hall|].
  apply login_unknown_user; [exact Hm|].
  destruct (user_by_username _ (db w)) as [u|] eqn:Hrow; [|reflexivity].
  destruct (user_by_username_in _ _ _ Hrow) as [Hin Hname].
  destruct (proj1 (List.Forall_forall _ _) Hall u Hin) as [_ Hs].
  rewrite Hname in Hs. contradiction.
Qed.

(** X22: In every reachable store each session belongs to a user that has a
    row: [session_get] on a stored token whose session has not expired
    returns an identity, with the session's user id, never [None]. *)
Theorem reachable_session_identity
    (w : world) (t : pystr) (r : session_row) :
  reachable H urandom clock w ->
  sessions (db w) !! t = Some r ->
  clock (ticks w) <= expires r ->
  exists u,
    In u (users (db w)) /\ id u = user_id r /\
    fst (session_get clock (Some t) w)
      = Ok (Some (mk_identity (user_id r) (username u))).
Proof.
  intros Hr Ht Hle.
  pose proof (reachable_steps H urandom clock w Hr) as Hs.
  assert (Hown : sessions_owned (db w)).
  { apply (db_steps_keep sessions_owned step_sessions_owned _ _ Hs).
    intros t' r' Hl. cbn in Hl. rewrite lookup_empty in Hl. discriminate. }
  assert (Htok : tokens_url_safe (db w)).
  { apply (db_steps_keep tokens_url_safe step_tokens_url_safe _ _ Hs).
    intros t' r' Hl. cbn in Hl. rewrite lookup_empty in Hl. discriminate. }
  destruct (Hown t r Ht) as [u Hu].
  destruct (Htok t r Ht) as [Hlen _].
  exists u. pose proof (user_by_id_id _ _ _ Hu) as Hid.
  split; [|split; [exact Hid|]].
  - unfold user_by_id in Hu. apply find_some in Hu. tauto.
  - rewrite (session_get_live clock t r w); [| |exact Ht|exact Hle].
    + cbn [fst]. rewrite Hu, Hid. reflexivity.
    + apply truthy_nonempty. intros ->. discriminate.
Qed.

(** X23: In every reachable store each session token is 43 URL-safe
    characters, and so survives the cookie: [cookie_get] reads it back from
    the header [session=token]. *)
Theorem reachable_tokens_cookie_safe
    (w : world) (t : pystr) (r : session_row) :
  reachable H urandom clock w ->
  sessions (db w) !! t = Some r ->
  length t = 43%nat /\ forallb url_safe t = true /\
  cookie_get (cookie_request (str "session=" ++ t)) (str "session")
    = Ok (Some t).
Proof.
  intros Hr Ht.
  pose proof (reachable_steps H urandom clock w Hr) as Hs.
  assert (Htok : tokens_url_safe (db w)).
  { apply (db_steps_keep tokens_url_safe step_tokens_url_safe _ _ Hs).
    intros t' r' Hl. cbn in Hl. rewrite lookup_empty in Hl. discriminate. }
  destruct (Htok t r Ht) as [Hlen Hsafe].
  split; [exact Hlen|]. split; [exact Hsafe|].
  apply session_cookie_plain, Hsafe.
Qed.

End Reachable.

(** ** Where sessions come from *)

Section NewSessions.

Variable H : pystr -> pystr.
Variable urandom : nat -> byte.
Variable clock : nat -> Z.

(** X24: [session_create] never overwrites a session: every row of the table
    is there afterwards with the same user and expiry, and when the token
    drawn is already a key the call raises IntegrityError and stores
    nothing. *)
Theorem session_create_never_overwrites
    (uid : Z) (w : world) (t : pystr) (r : session_row) :
  sessions (db w) !! t = Some r ->
  sessions (db (snd (session_create urandom clock uid w))) !! t = Some r /\
  (t = next_token urandom (drawn w) ->
   fst (session_create urandom clock uid w) = Raise IntegrityError /\
   db (snd (session_create urandom clock uid w)) = db w).
Proof.
  intros Ht.
  destruct (sessions (db w) !! next_token urandom (drawn w)) as [r'|] eqn:E.
  - rewrite (session_create_collision urandom clock uid w r' E).
    cbn [fst snd db]. split; [exact Ht | split; reflexivity].
  - rewrite (session_create_run urandom clock uid w E). cbn [fst snd db sessions].
    split.
    + rewrite lookup_insert_ne; [exact Ht | congruence].
    + intros ->. congruence.
Qed.

(** X25: [login] stores a session only after the password check: if a token
    has a session after the call and had none before, then the request was
    a POST, its username has a row, [check_pw] accepted its password
    against that row, and the session is for that row's id, with the token
    just drawn and an expiry 604800 seconds after the clock reading. *)
Theorem login_session_sound
    (env : environ) (w : world) (t : pystr) (r : session_row) :
  sessions (db w) !! t = None ->
  sessions (db (snd (login H urandom clock env w))) !! t = Some r ->
  REQUEST_METHOD env = str "POST" /\
  exists u,
    user_by_username (getfirst env (str "username")) (db w) = Some u /\
    check_pw H (getfirst env (str "password")) (password u) = Ok true /\
    t = next_token urandom (drawn w) /\
    r = mk_session (id u) (clock (ticks w) + 604800).
Proof.
  intros Hold Hnew.
  destruct (decide (REQUEST_METHOD env = str "POST")) as [Hm | Hm];
    [|rewrite (login_not_post H urandom clock env w Hm) in Hnew;
      cbn [snd] in Hnew; congruence].
  split; [exact Hm|].
  destruct (user_by_username (getfirst env (str "username")) (db w))
    as [u|] eqn:Hrow;
    [|rewrite (login_unknown_user H urandom clock env w Hm Hrow) in Hnew;
      cbn [snd] in Hnew; congruence].
  exists u. split; [reflexivity|].
  destruct (check_pw H (getfirst env (str "password")) (password u))
    as [[|] | e] eqn:Hpw.
  - split; [reflexivity|].
    rewrite (login_good H urandom clock env w u Hm Hrow Hpw) in Hnew.
    destruct (sessions (db w) !! next_token urandom (drawn w)) eqn:Htok;
      cbn [snd db sessions] in Hnew; [congruence|].
    destruct (decide (next_token urandom (drawn w) = t)) as [<- | Hne].
    + rewrite lookup_insert_eq in Hnew. split; congruence.
    + rewrite lookup_insert_ne in Hnew by exact Hne. congruence.
  - rewrite (login_checked H urandom clock env w u false Hm Hrow Hpw) in Hnew.
    cbn [snd] in Hnew. congruence.
  - rewrite (login_raises H urandom clock env w u e Hm Hrow Hpw) in Hnew.
    cbn [snd] in Hnew. congruence.
Qed.

(** X26: [signup] stores a session only for the account it has just created:
    if a token has a session after the call and had none before, then the
    trimmed username had no row, it has one now, appended with the next
    rowid, and the session is for that id. No sign-up gives a session of an
    existing user. *)
Theorem signup_session_sound
    (env : environ) (w : world) (t : pystr) (r : session_row) :
  sessions (db w) !! t = None ->
  sessions (db (snd (signup H urandom clock env w))) !! t = Some r ->
  let user := strip (getfirst env (str "username")) in
  user_by_username user (db w) = None /\
  (exists row,
     users (db (snd (signup H urandom clock env w))) = users (db w) ++ [row] /\
     username row = user /\ id row = next_rowid (users (db w)) /\
     user_id r = id row) /\
  (forall u, In u (users (db w)) -> id u <> user_id r).
Proof.
  intros Hold Hnew user.
  destruct (decide (REQUEST_METHOD env = str "POST")) as [Hm | Hm];
    [|rewrite (signup_not_post H urandom clock env w Hm) in Hnew;
      cbn [snd] in Hnew; congruence].
  destruct (decide (user = [])) as [Hu | Hu];
    [rewrite (signup_missing_field H urandom clock env w Hm (or_introl Hu)) in Hnew;
     cbn [snd] in Hnew; congruence|].
  destruct (decide (getfirst env (str "password") = [])) as [Hp | Hp];
    [rewrite (signup_missing_field H urandom clock env w Hm (or_intror Hp)) in Hnew;
     cbn [snd] in Hnew; congruence|].
  destruct (user_by_username user (db w)) as [u|] eqn:Hrow;
    [rewrite (signup_taken H urandom clock env w u Hm Hu Hp Hrow) in Hnew;
     cbn [snd db] in Hnew; congruence|].
  split; [reflexivity|].
  destruct (sessions (db w) !! next_token urandom (drawn w + 8)) as [r'|] eqn:Htok.
  - rewrite (signup_collision H urandom clock env w r' Hm Hu Hp Hrow Htok) in Hnew.
    cbn [snd db sessions] in Hnew. congruence.
  - rewrite (signup_registers H urandom clock env w Hm Hu Hp Hrow Htok) in Hnew |- *.
    cbn [snd db sessions users] in Hnew |- *.
    destruct (decide (next_token urandom (drawn w + 8) = t)) as [<- | Hne];
      [|rewrite lookup_insert_ne in Hnew by exact Hne; congruence].
    rewrite lookup_insert_eq in Hnew. injection Hnew as <-. cbn [user_id].
    split.
    + eexists. split; [reflexivity|]. cbn [username id]. repeat split.
    + intros v Hv. pose proof (next_rowid_above _ _ Hv). lia.
Qed.

End NewSessions.

(** * The further properties on concrete runs *)

Import RunMore.

Lemma w_bob_reachable : reachable Sha256.hexdigest rnd clk w_bob.
Proof.
  exact (reach_serve Sha256.hexdigest rnd clk
           (Signup (post_form "bob" "secret123")) w0
           (reach_start Sha256.hexdigest rnd clk 0 0)).
Defined.

(** X2 on a header of two cookies. *)
Lemma cookie_get_sound_witness :
  exists header part,
    HTTP_COOKIE (cookie_request (str "theme=dark; session=abc")) = Some header /\
    In part (split (chr ";") header) /\
    strip part = str "session" ++ chr "=" :: str "abc" /\
    contains (chr "=") (str "session") = false /\
    contains (chr ";") (str "abc") = false.
Proof.
  apply (cookie_get_sound (cookie_request (str "theme=dark; session=abc"))
           (str "session") (str "abc")).
  vm_compute. reflexivity.
Defined.

(** X4 on the cookie of bob's session, with its attributes. *)
Lemma cookie_get_round_trip_witness :
  cookie_get (cookie_request (str "session" ++ chr "=" :: bob_token)) (str "session")
    = Ok (Some bob_token) /\
  cookie_get (cookie_request ((str "session" ++ chr "=" :: bob_token)
                              ++ chr ";" :: str " Path=/; HttpOnly"))
             (str "session")
    = Ok (Some bob_token).
Proof.
  apply (cookie_get_round_trip (str "session") bob_token (str " Path=/; HttpOnly")).
  - vm_compute. reflexivity.
  - reflexivity.
Defined.

(** X7 on the password column of bob's row. *)
Lemma check_pw_accepts_iff_witness :
  check_pw Sha256.hexdigest (str "secret123") bob_stored = Ok true.
Proof.
  apply (proj2 (check_pw_accepts_iff Sha256.hexdigest (str "secret123") bob_stored)).
  exists (str "0b30557a9fc4e90e"). split; vm_compute; reflexivity.
Defined.

(** X8 on the first and the second eight bytes of the stream. *)
Lemma hash_pw_salts_differ_witness :
  fst (hash_pw Sha256.hexdigest rnd (str "secret123") (mk_world empty_db 0 0))
  <> fst (hash_pw Sha256.hexdigest rnd (str "secret123") (mk_world empty_db 8 0)).
Proof.
  apply (hash_pw_salts_differ Sha256.hexdigest rnd).
  vm_compute. discriminate.
Defined.

(** X9 on texts with and without markup. *)
Lemma escape_no_special_witness :
  Html.escape (str "bob") = str "bob".
Proof.
  apply (proj2 (escape_no_special (str "bob"))). vm_compute. reflexivity.
Defined.

(** X10 on two users and two titles. *)
Lemma page_markup_fixed_witness :
  count_occ N.eq_dec
    (Html.page (str "x") (str "Home") (Some (mk_identity 1 (str "bob")))) (chr "<")
  = count_occ N.eq_dec
      (Html.page (str "x") (str "<script>")
                 (Some (mk_identity 2 (str "<b>eve</b>")))) (chr "<").
Proof.
  apply page_markup_fixed; [reflexivity|].
  split; discriminate.
Defined.

(** X11 on bob's sign-up, with blanks around the name. *)
Lemma signup_creates_account_witness :
  exists row w',
    signup Sha256.hexdigest rnd clk (post_form " bob " "secret123") w0
      = (Ok (redirect (str "/") (session_cookie bob_token)), w') /\
    users (db w') = [row] /\ username row = str "bob" /\
    check_pw Sha256.hexdigest (str "secret123") (password row) = Ok true.
Proof.
  destruct (signup_creates_account Sha256.hexdigest rnd clk
              (post_form " bob " "secret123") w0)
    as (row & w' & Hs & Hu & Hn & _ & _ & Hc & _).
  - reflexivity.
  - vm_compute. discriminate.
  - vm_compute. discriminate.
  - vm_compute. reflexivity.
  - vm_compute. reflexivity.
  - exists row, w'. repeat split; assumption.
Defined.

(** X13 on a store where the token of bob's sign-up is already in use. *)
Lemma signup_token_collision_witness :
  exists row w',
    signup Sha256.hexdigest rnd clk (post_form "bob" "secret123") w_used
      = (Ok username_taken, w') /\
    user_by_username (str "bob") (db w') = Some row.
Proof.
  destruct (signup_token_collision Sha256.hexdigest rnd clk
              (post_form "bob" "secret123") w_used (mk_session 7 0))
    as (row & w' & Hs & _ & Hu & _).
  - reflexivity.
  - vm_compute. discriminate.
  - vm_compute. discriminate.
  - vm_compute. reflexivity.
  - vm_compute. reflexivity.
  - exists row, w'. split; assumption.
Defined.

(** X14 on bob logging in again. *)
Lemma login_creates_session_witness :
  exists w',
    login Sha256.hexdigest rnd clk (post_form "bob" "secret123") w_bob
      = (Ok (redirect (str "/") (session_cookie (next_token rnd (drawn w_bob)))), w') /\
    sessions (db w') !! bob_token = sessions (db w_bob) !! bob_token.
Proof.
  destruct (login_creates_session Sha256.hexdigest rnd clk
              (post_form "bob" "secret123") w_bob
              (mk_user 1 (str "bob") bob_stored 1700000000))
    as (w' & Hl & _ & Hother & _).
  - reflexivity.
  - vm_compute. reflexivity.
  - vm_compute. reflexivity.
  - vm_compute. reflexivity.
  - exists w'. split; [exact Hl|]. apply Hother. vm_compute. discriminate.
Defined.

(** X15 on bob logging out. *)
Lemma logout_then_session_get_witness :
  fst (session_get clk (Some bob_token) (snd (logout bob_cookie w_bob)))
    = Ok None.
Proof.
  apply (logout_then_session_get clk bob_cookie w_bob (Some bob_token)).
  vm_compute. reflexivity.
Defined.

(** X16 on bob's sign-up. *)
Lemma signup_then_session_get_witness :
  fst (session_get clk (Some bob_token) w_bob)
    = Ok (Some (mk_identity 1 (str "bob"))).
Proof.
  destruct (signup_then_session_get Sha256.hexdigest rnd clk
              (post_form "bob" "secret123") w0) as (_ & _ & Hg).
  - reflexivity.
  - vm_compute. discriminate.
  - vm_compute. discriminate.
  - vm_compute. reflexivity.
  - vm_compute. reflexivity.
  - vm_compute. discriminate.
  - exact Hg.
Defined.

(** X17 on bob signing up with blanks around his name, then logging in. *)
Lemma signup_then_login_witness :
  exists w2,
    login Sha256.hexdigest rnd clk (post_form "bob" "secret123")
          (snd (signup Sha256.hexdigest rnd clk (post_form " bob " "secret123") w0))
      = (Ok (redirect (str "/") (session_cookie (next_token rnd 40))), w2).
Proof.
  destruct (signup_then_login Sha256.hexdigest rnd clk
              (post_form " bob " "secret123") (post_form "bob" "secret123") w0)
    as (w2 & Hl & _).
  - reflexivity.
  - vm_compute. discriminate.
  - vm_compute. discriminate.
  - vm_compute. reflexivity.
  - vm_compute. reflexivity.
  - reflexivity.
  - vm_compute. reflexivity.
  - reflexivity.
  - vm_compute. reflexivity.
  - vm_compute. discriminate.
  - exists w2. exact Hl.
Defined.

(** X19 to X23 at bob's store, which his sign-up reaches. *)
Lemma reachable_keys_unique_witness :
  NoDup (List.map username (users (db w_bob))) /\
  NoDup (List.map id (users (db w_bob))).
Proof.
  apply (reachable_keys_unique Sha256.hexdigest rnd clk w_bob w_bob_reachable).
Defined.

Lemma reachable_login_responds_witness :
  (exists resp w',
     login Sha256.hexdigest rnd clk (post_form "bob" "bad") w_bob = (Ok resp, w')) \/
  (exists r, sessions (db w_bob) !! next_token rnd (drawn w_bob) = Some r /\
     login Sha256.hexdigest rnd clk (post_form "bob" "bad") w_bob
       = (Raise IntegrityError,
          mk_world (db w_bob) (drawn w_bob + 32) (S (ticks w_bob)))).
Proof.
  apply (reachable_login_responds Sha256.hexdigest rnd clk w_bob
           (post_form "bob" "bad") w_bob_reachable).
Defined.

Lemma reachable_login_untrimmed_witness :
  login Sha256.hexdigest rnd clk (post_form "bob " "secret123") w_bob
    = (Ok invalid_credentials, w_bob).
Proof.
  apply (reachable_login_untrimmed Sha256.hexdigest rnd clk w_bob
           (post_form "bob " "secret123") w_bob_reachable).
  - reflexivity.
  - vm_compute. discriminate.
Defined.

Lemma reachable_session_identity_witness :
  exists u,
    In u (users (db w_bob)) /\ id u = 1 /\
    fst (session_get clk (Some bob_token) w_bob)
      = Ok (Some (mk_identity 1 (username u))).
Proof.
  apply (reachable_session_identity Sha256.hexdigest rnd clk w_bob bob_token
           (mk_session 1 1700604900) w_bob_reachable).
  - vm_compute. reflexivity.
  - vm_compute. discriminate.
Defined.

Lemma reachable_tokens_cookie_safe_witness :
  length bob_token = 43%nat /\ forallb url_safe bob_token = true /\
  cookie_get (cookie_request (str "session=" ++ bob_token)) (str "session")
    = Ok (Some bob_token).
Proof.
  apply (reachable_tokens_cookie_safe Sha256.hexdigest rnd clk w_bob bob_token
           (mk_session 1 1700604900) w_bob_reachable).
  vm_compute. reflexivity.
Defined.

(** X24 on bob's session and a second one. *)
Lemma session_create_never_overwrites_witness :
  sessions (db (snd (session_create rnd clk 1 w_bob))) !! bob_token
    = Some (mk_session 1 1700604900).
Proof.
  apply (session_create_never_overwrites rnd clk 1 w_bob bob_token).
  vm_compute. reflexivity.
Defined.

(** X25 on bob logging in again: the new session is his. *)
Lemma login_session_sound_witness :
  REQUEST_METHOD (post_form "bob" "secret123") = str "POST" /\
  exists u,
    user_by_username (getfirst (post_form "bob" "secret123") (str "username"))
                     (db w_bob) = Some u /\
    check_pw Sha256.hexdigest
             (getfirst (post_form "bob" "secret123") (str "password"))
             (password u) = Ok true /\
    next_token rnd 40 = next_token rnd (drawn w_bob) /\
    mk_session 1 1700605000 = mk_session (id u) (clk (ticks w_bob) + 604800).
Proof.
  apply (login_session_sound Sha256.hexdigest rnd clk
           (post_form "bob" "secret123") w_bob (next_token rnd 40)
           (mk_session 1 1700605000)).
  - vm_compute. reflexivity.
  - vm_compute. reflexivity.
Defined.

(** X26 on bob's sign-up: the session is for the row just appended. *)
Lemma signup_session_sound_witness :
  user_by_username (strip (getfirst (post_form "bob" "secret123") (str "username")))
                   (db w0) = None /\
  (exists row,
     users (db (snd (signup Sha256.hexdigest rnd clk
                       (post_form "bob" "secret123") w0)))
       = users (db w0) ++ [row] /\
     username row = strip (getfirst (post_form "bob" "secret123") (str "username")) /\
     id row = next_rowid (users (db w0)) /\
     user_id (mk_session 1 1700604900) = id row) /\
  (forall u, In u (users (db w0)) -> id u <> user_id (mk_session 1 1700604900)).
Proof.
  apply (signup_session_sound Sha256.hexdigest rnd clk
           (post_form "bob" "secret123") w0 bob_token (mk_session 1 1700604900)).
  - vm_compute. reflexivity.
  - vm_compute. reflexivity.
Defined.
